(** * ALI_IOS/Func_Miniconda.py: the WSL / Miniconda execution bridge

    A shallow embedding of [src/ALI_IOS/Func_Miniconda.py] and the
    properties of its provisioning, path translation and worker dispatch.

    Conventions of the embedding.
    - A Python [str] is a [string] whose characters are the code points
      U+0000 .. U+00FF; [isspace] and [lower_char] are Python's on that range.
    - A child process, once started, runs to completion and yields a
      [CompletedProcess]; what it answers is decided by the platform, a
      parameter of every effectful definition. A child given as an argument
      vector may fail to start, which raises an [OSError]; a child given to
      the shell ([shell=True]) always starts. Captured output is decoded
      with [errors='replace'] everywhere but at line 104, where decoding
      may raise.
    - Effects are recorded, in program order, as a list of [Event]s. *)

From Stdlib Require Import String Ascii List ZArith NArith Bool Lia.
Import ListNotations.
Local Open Scope list_scope.
Local Open Scope string_scope.

(* ===================================================================== *)
(** * Python strings                                                      *)
(* ===================================================================== *)

Module PyStr.

Definition ord (c : ascii) : N := N_of_ascii c.
Definition chr (n : N) : ascii := ascii_of_N n.

(** Characters that cannot be written inside a literal. *)
Definition dquote : string := String (chr 34) EmptyString.
Definition newline : ascii := chr 10.
Definition backslash : ascii := chr 92.
Definition slash : ascii := chr 47.
Definition colon : ascii := chr 58.

(** [str.isspace] on one character: TAB..CR, FS..US, SPACE, NEL, NBSP. *)
Definition isspace (c : ascii) : bool :=
  let n := ord c in
  ((9 <=? n) && (n <=? 13) || (28 <=? n) && (n <=? 32)
   || (n =? 133) || (n =? 160))%N.

(** [str.lower] on one character: A..Z and the upper-case letters of the
    Latin-1 block (U+00C0..U+00DE but the multiplication sign U+00D7). *)
Definition lower_char (c : ascii) : ascii :=
  let n := ord c in
  if ((65 <=? n) && (n <=? 90)
      || (192 <=? n) && (n <=? 222) && negb (n =? 215))%N
  then chr (n + 32) else c.

Fixpoint lower (s : string) : string :=
  match s with
  | EmptyString => EmptyString
  | String c s' => String (lower_char c) (lower s')
  end.

Fixpoint lstrip (s : string) : string :=
  match s with
  | EmptyString => EmptyString
  | String c s' => if isspace c then lstrip s' else s
  end.

Fixpoint rstrip (s : string) : string :=
  match s with
  | EmptyString => EmptyString
  | String c s' =>
      match rstrip s' with
      | EmptyString => if isspace c then EmptyString else String c EmptyString
      | r => String c r
      end
  end.

(** [s.strip()] *)
Definition strip (s : string) : string := rstrip (lstrip s).

(** [s.replace(old, new)] for one-character [old] and [new]. *)
Fixpoint replace (old new : ascii) (s : string) : string :=
  match s with
  | EmptyString => EmptyString
  | String c s' =>
      String (if Ascii.eqb c old then new else c) (replace old new s')
  end.

(** [c in s] for a one-character [c]. *)
Fixpoint contains (c : ascii) (s : string) : bool :=
  match s with
  | EmptyString => false
  | String d s' => Ascii.eqb d c || contains c s'
  end.

(** [s.split(sep)] for a one-character separator. *)
Fixpoint split (sep : ascii) (s : string) : list string :=
  match s with
  | EmptyString => [EmptyString]
  | String c s' =>
      if Ascii.eqb c sep then EmptyString :: split sep s'
      else match split sep s' with
           | h :: t => String c h :: t
           | [] => [String c EmptyString]
           end
  end.

(** [s.split(sep, 1)]: at most one cut, at the first separator. *)
Fixpoint split1 (sep : ascii) (s : string) : list string :=
  match s with
  | EmptyString => [EmptyString]
  | String c s' =>
      if Ascii.eqb c sep then [EmptyString; s']
      else match split1 sep s' with
           | h :: t => String c h :: t
           | [] => [String c EmptyString]
           end
  end.

(** ["*" * n] *)
Fixpoint repeat_str (s : string) (n : nat) : string :=
  match n with
  | O => EmptyString
  | S n' => s ++ repeat_str s n'
  end.

Fixpoint existsb_str (f : ascii -> bool) (s : string) : bool :=
  match s with
  | EmptyString => false
  | String c s' => f c || existsb_str f s'
  end.

Fixpoint drop_while (f : ascii -> bool) (l : list ascii) : list ascii :=
  match l with
  | [] => []
  | c :: l' => if f c then drop_while f l' else l
  end.

(** What follows the last separator of [p]. *)
Fixpoint after_last (is_sep : ascii -> bool) (p : string) : string :=
  match p with
  | EmptyString => EmptyString
  | String c p' =>
      if existsb_str is_sep p then after_last is_sep p' else p
  end.

(** What precedes, and includes, the last separator of [p]. *)
Fixpoint upto_last (is_sep : ascii -> bool) (p : string) : string :=
  match p with
  | EmptyString => EmptyString
  | String c p' =>
      if existsb_str is_sep p then String c (upto_last is_sep p')
      else EmptyString
  end.

Definition last_char (s : string) : option ascii :=
  match rev (list_ascii_of_string s) with
  | c :: _ => Some c
  | [] => None
  end.

(** [posixpath.basename] *)
Definition posix_basename (p : string) : string :=
  after_last (Ascii.eqb slash) p.

Definition nt_sep (c : ascii) : bool :=
  Ascii.eqb c slash || Ascii.eqb c backslash.

(** [ntpath.splitdrive] for drive-letter paths (UNC and device paths are
    left whole, as paths without a drive). *)
Definition nt_splitdrive (p : string) : string * string :=
  match p with
  | String d (String c rest) =>
      if Ascii.eqb c colon then (String d (String c EmptyString), rest)
      else (EmptyString, p)
  | _ => (EmptyString, p)
  end.

(** [ntpath.basename] for drive-letter paths and paths without a drive. *)
Definition nt_basename (p : string) : string :=
  after_last nt_sep (snd (nt_splitdrive p)).

(** [ntpath.dirname] for drive-letter paths and paths without a drive:
    the head, without its trailing separators unless it consists of
    separators only. *)
Definition nt_dirname (p : string) : string :=
  let (d, r) := nt_splitdrive p in
  let head := upto_last nt_sep r in
  let trimmed := string_of_list_ascii
                   (rev (drop_while nt_sep (rev (list_ascii_of_string head)))) in
  d ++ (if String.eqb trimmed EmptyString then head else trimmed).

(** [ntpath.join] when every later component is relative and has no drive. *)
Definition nt_join (a : string) (parts : list string) : string :=
  let (d, r) := nt_splitdrive a in
  d ++ fold_left
         (fun acc p =>
            match last_char acc with
            | Some c => if nt_sep c then acc ++ p
                        else acc ++ String backslash EmptyString ++ p
            | None => acc ++ p
            end) parts r.

End PyStr.
Import PyStr.

(* ===================================================================== *)
(** * Path translation                                                    *)
(* ===================================================================== *)

(** [windows_to_linux_path], lines 152-164. *)
Definition windows_to_linux_path (windows_path : string) : string :=
  let windows_path := strip windows_path in
  let path := replace backslash slash windows_path in
  if contains colon path then
    match split1 colon path with
    | [drive; path_without_drive] =>
        "/mnt/" ++ lower drive ++ path_without_drive
    | _ => path
    end
  else path.

(** The path after [strip] and [replace], before the drive is looked for. *)
Definition normalized (s : string) : string :=
  replace backslash slash (strip s).

(* ===================================================================== *)
(** * Processes, exceptions and effects                                   *)
(* ===================================================================== *)

(** What [subprocess] is asked to start: an argument vector, or one line
    for the shell ([shell=True]). *)
Inductive Command : Type :=
| Argv (argv : list string)
| Shell (line : string).

(** [subprocess.CompletedProcess] *)
Record CompletedProcess : Type := mkCompleted {
  returncode : Z;
  stdout : string;
  stderr : string
}.

(** The exceptions the module can meet. [OSError] is what [subprocess]
    raises when a program cannot be started, known by its class name
    ([FileNotFoundError], [PermissionError]); [UnicodeDecodeError] is what
    a strict decoding of captured output raises; [Foreign] is an exception
    raised inside the rpyc library or by the worker, known by its class
    name. *)
Inductive exn : Type :=
| CalledProcessError (code : Z) (cmd : Command)
| NotImplementedError (msg : string)
| NameError (name : string)
| IndexError
| Foreign (cls : string)
| OSError (cls : string)
| UnicodeDecodeError.

(** The argument bundle built by the [__main__] block, lines 245-257. *)
Record Args : Type := mkArgs {
  arg_input : string;
  arg_dir_models : string;
  arg_lm_type : list string;
  arg_teeth : list string;
  arg_save_in_folder : bool;
  arg_output_dir : string;
  arg_image_size : Z;
  arg_blur_radius : Z;
  arg_faces_per_pixel : Z
}.

(** An argument of [print]. [VFmt prefix v] is the f-string that ends in
    a part [v] which is not a [str]; f-strings over [str] parts only are
    plain concatenations. *)
Inductive PyVal : Type :=
| VStr (s : string)
| VInt (z : Z)
| VList (l : list string)
| VExn (e : exn)
| VFmt (prefix : string) (v : PyVal).

Inductive Event : Type :=
| EvRun (c : Command) (r : CompletedProcess)   (* a child ran to completion *)
| EvPopen (c : Command)                        (* a child left running *)
| EvTerminate (c : Command)                    (* [Popen.terminate]/[kill] *)
| EvSleep (secs : Z)
| EvConnect (host : string) (port : Z) (failure : option exn)
| EvRemote (method : string) (failure : option exn)
| EvClose
| EvPrint (args : list PyVal).

(** Everything outside the module: the interpreter's view of the host, the
    operating system that runs the children, and the rpyc library. *)
Record Platform : Type := mkPlatform {
  world : Type;
  platform_system : string;                    (* [platform.system()] *)
  platform_machine : string;                   (* [platform.machine()] *)
  sys_argv : list string;                      (* [sys.argv] *)
  module_file : string;                        (* [os.path.abspath(__file__)] *)
  os_path_join : string -> list string -> string;
  os_path_basename : string -> string;
  os_path_dirname : string -> string;
  os_run : Command -> world -> CompletedProcess * world;
  os_start : list string -> world -> option string;
                 (* [Some cls]: starting this argument vector raises the
                    [OSError] of class [cls]; [None]: the child starts *)
  os_decodes : Command -> world -> bool;
                 (* does the output of the child decode in the locale's
                    encoding? *)
  os_popen : Command -> world -> world;
  os_sleep : Z -> world -> world;
  rpyc_bound : bool;                 (* is the global name [rpyc] bound? *)
  rpyc_connect : string -> Z -> world -> option exn * world;
  rpyc_running : Args -> world -> option exn * world;
  rpyc_stop : world -> (exn + string) * world;
  rpyc_close : world -> world
}.

Inductive Result (A : Type) : Type :=
| Ok (a : A)
| Raise (e : exn).
Arguments Ok {A} a.
Arguments Raise {A} e.

Record Outcome (W A : Type) : Type := mkOutcome {
  result : Result A;
  final : W;
  events : list Event
}.
Arguments mkOutcome {W A} _ _ _.
Arguments result {W A} _.
Arguments final {W A} _.
Arguments events {W A} _.

(** A computation: from the world before to its result, the world after
    and the effects in between. *)
Definition M (W A : Type) : Type := W -> Outcome W A.

Definition ret {W A} (a : A) : M W A :=
  fun w => mkOutcome (Ok a) w [].

Definition raise {W A} (e : exn) : M W A :=
  fun w => mkOutcome (Raise e) w [].

Definition bind {W A B} (m : M W A) (f : A -> M W B) : M W B :=
  fun w =>
    let o := m w in
    match result o with
    | Ok a =>
        let o' := f a (final o) in
        mkOutcome (result o') (final o') (events o ++ events o')%list
    | Raise e => mkOutcome (Raise e) (final o) (events o)
    end.

(** [try: m except <handles>: handler] *)
Definition try_except {W A} (m : M W A) (handles : exn -> bool)
  (handler : exn -> M W A) : M W A :=
  fun w =>
    let o := m w in
    match result o with
    | Ok a => o
    | Raise e =>
        if handles e then
          let o' := handler e (final o) in
          mkOutcome (result o') (final o') (events o ++ events o')%list
        else o
    end.

Declare Scope py_scope.
Delimit Scope py_scope with py.
Notation "x <- m ;; k" := (bind m (fun x => k))
  (at level 61, m at next level, right associativity) : py_scope.
Notation "m ;; k" := (bind m (fun _ => k))
  (at level 61, right associativity) : py_scope.
Local Open Scope py_scope.

Definition emit {W} (e : Event) : M W unit :=
  fun w => mkOutcome (Ok tt) w [e].

Definition print {W} (args : list PyVal) : M W unit := emit (EvPrint args).

Section Primitives.
Variable P : Platform.

(** What starting [cmd] raises, if anything: only an argument vector can
    fail to start; with [shell=True] it is the shell that is started. *)
Definition start_failure (cmd : Command) (w : world P) : option string :=
  match cmd with
  | Argv argv => os_start P argv w
  | Shell _ => None
  end.

(** [subprocess.run(cmd, ...)], with output captured as bytes, not
    captured, or decoded with [errors='replace']: raises [OSError] when the
    child cannot be started; otherwise blocks until the child exits and
    returns its [CompletedProcess], whatever the exit code. *)
Definition subprocess_run (cmd : Command) : M (world P) CompletedProcess :=
  fun w =>
    match start_failure cmd w with
    | Some cls => mkOutcome (Raise (OSError cls)) w []
    | None =>
        let r := fst (os_run P cmd w) in
        mkOutcome (Ok r) (snd (os_run P cmd w)) [EvRun cmd r]
    end.

(** [subprocess.run(cmd, stdout=PIPE, stderr=PIPE, text=True)], line 104:
    as [subprocess_run], but the output is decoded strictly in the locale's
    encoding, which raises [UnicodeDecodeError] after the child has run
    when it does not decode. *)
Definition subprocess_run_strict (cmd : Command)
  : M (world P) CompletedProcess :=
  fun w =>
    match start_failure cmd w with
    | Some cls => mkOutcome (Raise (OSError cls)) w []
    | None =>
        let r := fst (os_run P cmd w) in
        if os_decodes P cmd w
        then mkOutcome (Ok r) (snd (os_run P cmd w)) [EvRun cmd r]
        else mkOutcome (Raise UnicodeDecodeError) (snd (os_run P cmd w))
                       [EvRun cmd r]
    end.

(** [subprocess.check_call(cmd)]: as [run], but a non-zero exit code is
    raised as [CalledProcessError]. *)
Definition subprocess_check_call (cmd : Command) : M (world P) Z :=
  r <- subprocess_run cmd ;;
  if (returncode r =? 0)%Z then ret 0%Z
  else raise (CalledProcessError (returncode r) cmd).

(** [subprocess.Popen(cmd, shell=True)] *)
Definition subprocess_Popen (cmd : Command) : M (world P) Command :=
  fun w => mkOutcome (Ok cmd) (os_popen P cmd w) [EvPopen cmd].

(** [time.sleep(secs)] *)
Definition time_sleep (secs : Z) : M (world P) unit :=
  fun w => mkOutcome (Ok tt) (os_sleep P secs w) [EvSleep secs].

(** [rpyc.connect(host, port)]: the lookup of the global [rpyc] comes
    first; the module has no [import rpyc]. *)
Definition rpyc_connect_call (host : string) (port : Z) : M (world P) unit :=
  if rpyc_bound P then
    fun w =>
      let r := rpyc_connect P host port w in
      mkOutcome (match fst r with None => Ok tt | Some e => Raise e end)
                (snd r) [EvConnect host port (fst r)]
  else raise (NameError "rpyc").

(** [conn.root.running(args)] *)
Definition conn_root_running (args : Args) : M (world P) unit :=
  fun w =>
    let r := rpyc_running P args w in
    mkOutcome (match fst r with None => Ok tt | Some e => Raise e end)
              (snd r) [EvRemote "running" (fst r)].

(** [conn.root.stop()] *)
Definition conn_root_stop : M (world P) string :=
  fun w =>
    let r := rpyc_stop P w in
    match fst r with
    | inr s => mkOutcome (Ok s) (snd r) [EvRemote "stop" None]
    | inl e => mkOutcome (Raise e) (snd r) [EvRemote "stop" (Some e)]
    end.

(** [conn.close()] *)
Definition conn_close : M (world P) unit :=
  fun w => mkOutcome (Ok tt) (rpyc_close P w) [EvClose].

(** [sys.argv[i]] *)
Definition argv_at (i : nat) : M (world P) string :=
  match nth_error (sys_argv P) i with
  | Some a => ret a
  | None => raise IndexError
  end.

End Primitives.

(* ===================================================================== *)
(** * The module                                                          *)
(* ===================================================================== *)

Definition e_acute : string := String (chr 233) EmptyString.
Definition e_grave : string := String (chr 232) EmptyString.

(** The literal [wsl -- bash -c "<body>"] of lines 65, 123-130 and 187. *)
Definition wsl_bash_c (body : string) : string :=
  "wsl -- bash -c " ++ dquote ++ body ++ dquote.

(** The command of line 77. *)
Definition envs_listing : Command :=
  Argv ["wsl"; "--"; "~/miniconda3/bin/python3"; "~/miniconda3/bin/conda";
        "info"; "--envs"].

(** The command of line 101. *)
Definition create_argv (name : string) : list string :=
  ["wsl"; "--"; "~/miniconda3/bin/conda"; "create"; "-y"; "-n"; name;
   "python=3.9"; "pip"; "numpy-base"].

(** The list of lines 122-131. *)
Definition install_commands (name : string) : list string :=
  let path_pip := "~/miniconda3/envs/" ++ name ++ "/bin/pip" in
  let path_activate := "~/miniconda3/bin/activate" in
  let pre := "source " ++ path_activate ++ " " ++ name ++ " && " ++ path_pip in
  [ wsl_bash_c (pre ++ " install torch torchvision torchaudio --extra-index-url https://download.pytorch.org/whl/cu113");
    wsl_bash_c (pre ++ " install monai==0.7.0");
    wsl_bash_c (pre ++ " install --no-cache-dir torch==1.11.0+cu113 torchvision==0.12.0+cu113 torchaudio==0.11.0+cu113 --extra-index-url https://download.pytorch.org/whl/cu113");
    wsl_bash_c (pre ++ " install fvcore");
    wsl_bash_c (pre ++ " install --no-index --no-cache-dir pytorch3d -f https://dl.fbaipublicfiles.com/pytorch3d/packaging/wheels/py39_cu113_pyt1110/download.html");
    wsl_bash_c (pre ++ " install rpyc");
    wsl_bash_c (pre ++ " install vtk");
    wsl_bash_c (pre ++ " install scipy") ].

Definition stars : string := repeat_str "*" 150.

Section Program.
Variable P : Platform.

(** [checkMinicondaWsl], lines 8-12. *)
Definition checkMinicondaWsl : M (world P) (bool * string) :=
  result <- subprocess_run P (Argv ["wsl"; "test"; "-d"; "~/miniconda3"]) ;;
  let default_install_path := "~/miniconda3" in
  ret ((returncode result =? 0)%Z, default_install_path).

(** [install_conda], lines 14-42. The bare [except:] handles everything;
    its [return False] leaves the function. *)
Definition install_conda (default_install_path : string) : M (world P) bool :=
  let system := platform_system P in
  let machine := platform_machine P in
  let miniconda_base_url := "https://repo.anaconda.com/miniconda/" in
  filename <-
    (if system =? "Windows" then ret "Miniconda3-latest-Linux-x86_64.sh"
     else raise (NotImplementedError
                   ("Unsupported system: " ++ system ++ " " ++ machine))) ;;
  let miniconda_url := miniconda_base_url ++ filename in
  let path_sh := os_path_join P default_install_path ["miniconda.sh"] in
  let path_conda := os_path_join P default_install_path ["bin"; "conda"] in
  subprocess_run P (Argv ["wsl"; "wget"; "--continue"; "--tries=3";
                          miniconda_url; "-O"; path_sh]) ;;
  subprocess_run P (Argv ["wsl"; "chmod"; "+x"; path_sh]) ;;
  returned <-
    try_except
      (print [VStr "Installing Miniconda..."] ;;
       subprocess_run P (Argv ["wsl"; "bash"; path_sh; "-b"; "-u"; "-p";
                               default_install_path]) ;;
       subprocess_run P (Argv ["wsl"; "rm"; "-rf"; path_sh]) ;;
       subprocess_run P (Argv ["wsl"; path_conda; "init"; "bash"]) ;;
       print [VStr "Miniconda installed successfully!"] ;;
       ret None)
      (fun _ => true)
      (fun _ =>
         print [VStr "An error occurred during Miniconda installation."] ;;
         ret (Some false)) ;;
  match returned with
  | Some b => ret b
  | None => ret true
  end.

Definition is_CalledProcessError (e : exn) : bool :=
  match e with
  | CalledProcessError _ _ => true
  | _ => false
  end.

Definition installer : string := "Miniconda3-latest-Linux-x86_64.sh".

(** [install_miniconda_on_wsl], lines 45-71. *)
Definition install_miniconda_on_wsl : M (world P) unit :=
  try_except
    (subprocess_check_call P
       (Argv ["wsl"; "--"; "wget";
              "https://repo.anaconda.com/miniconda/Miniconda3-latest-Linux-x86_64.sh"]) ;;
     subprocess_check_call P (Argv ["wsl"; "--"; "chmod"; "+x"; installer]) ;;
     subprocess_check_call P (Argv ["wsl"; "--"; "bash"; installer; "-b"]) ;;
     subprocess_check_call P (Argv ["wsl"; "--"; "rm"; installer]) ;;
     subprocess_check_call P
       (Argv ["wsl"; "--"; "bash"; "-c";
              "echo 'export PATH=" ++ dquote ++ "$HOME/miniconda3/bin:$PATH"
                ++ dquote ++ "' >> ~/.bashrc"]) ;;
     subprocess_check_call P
       (Argv ["wsl"; "--"; "bash"; "-c"; "source ~/.bashrc"]) ;;
     let command := wsl_bash_c "~/miniconda3/bin/pip install rpyc" in
     subprocess_run P (Shell command) ;;
     print [VStr ("Miniconda a " ++ e_acute ++ "t" ++ e_acute ++ " install"
                    ++ e_acute ++ " avec succ" ++ e_grave ++ "s sur WSL.")])
    is_CalledProcessError
    (fun e =>
       print [VFmt "Une erreur s'est produite lors de l'installation de Miniconda sur WSL: "
                (VExn e)]).

(** The [for line in env_lines] loop of lines 85-89; [Some true] is its
    [return True], [None] is falling out of the loop. *)
Fixpoint checkEnv_loop (name : string) (env_lines : list string)
  : M (world P) (option bool) :=
  match env_lines with
  | [] => ret None
  | line :: rest =>
      let env_name := os_path_basename P line in
      if env_name =? name then
        print [VStr "Env conda exist"] ;; ret (Some true)
      else checkEnv_loop name rest
  end.

(** [checkEnvCondaWsl], lines 74-92. *)
Definition checkEnvCondaWsl (name : string) : M (world P) bool :=
  let command_to_execute := envs_listing in
  result <- subprocess_run P command_to_execute ;;
  returned <-
    (if (returncode result =? 0)%Z then
       let output := stdout result in
       print [VStr "output : "; VStr output] ;;
       let env_lines := split newline (strip output) in
       checkEnv_loop name env_lines
     else ret None) ;;
  match returned with
  | Some b => ret b
  | None => print [VStr "Env conda doesn't exist"] ;; ret false
  end.

(** The [for command in install_commands] loop of lines 135-143; it
    rebinds [result] at every turn and hands the last one on. *)
Fixpoint install_loop (commands : list string) (result : CompletedProcess)
  : M (world P) CompletedProcess :=
  match commands with
  | [] => ret result
  | command :: rest =>
      print [VStr "command : "; VStr command] ;;
      result <- subprocess_run P (Shell command) ;;
      (if (returncode result =? 0)%Z
       then print [VStr ("Successfully executed: " ++ command)]
       else print [VStr ("Failed to execute: " ++ command)]) ;;
      install_loop rest result
  end.

(** [createCondaEnv], lines 94-148. It returns nothing. *)
Definition createCondaEnv (name : string) : M (world P) unit :=
  let path_conda := "~/miniconda3/bin/conda" in
  let command_to_execute := create_argv name in
  print [VFmt "command_to_execute : " (VList command_to_execute)] ;;
  result <- subprocess_run_strict P (Argv command_to_execute) ;;
  (if negb (returncode result =? 0)%Z then
     print [VFmt "Error creating the environment. Return code: "
              (VInt (returncode result))] ;;
     print [VStr "result.stdout : "; VStr stars] ;;
     print [VStr (stdout result)] ;;
     print [VStr "result.stderr : "; VStr stars] ;;
     print [VStr (stderr result)]
   else print [VStr "Environment created successfully."]) ;;
  result <- subprocess_run P (Shell (path_conda ++ " list pip")) ;;
  print [VStr (stdout result)] ;;
  result <- install_loop (install_commands name) result ;;
  if (returncode result =? 0)%Z
  then print [VStr "Environment created successfully:"; VStr (stdout result)]
  else print [VStr "Failed to create environment:"; VStr (stderr result)].

(** Lines 170-172 of [setup]: the runtime is probed and, when the probe
    fails, installed. *)
Definition ensureRuntime : M (world P) string :=
  r <- checkMinicondaWsl ;;
  let miniconda := fst r in
  let default_install_path := snd r in
  (if negb miniconda then install_miniconda_on_wsl else ret tt) ;;
  ret default_install_path.

(** Lines 176-177 of [setup]: the environment is probed and, when the
    probe fails, created. *)
Definition ensureEnvironment (name : string) : M (world P) unit :=
  exists_ <- checkEnvCondaWsl name ;;
  if negb exists_ then createCondaEnv name else ret tt.

(** [setup], lines 168-201. Both parameters are unused: the first is
    rebound at line 170, the second is only read by the call commented out
    at line 201. *)
Definition setup (default_install_path : string) (args : Args)
  : M (world P) unit :=
  default_install_path <- ensureRuntime ;;
  let name := "aliIOSCondaCli" in
  ensureEnvironment name ;;
  let current_file_path := module_file P in
  let current_directory := os_path_dirname P current_file_path in
  let python_path := "~/miniconda3/bin/python" in
  let lien_path := os_path_join P current_directory ["link.py"] in
  let lien_path := windows_to_linux_path lien_path in
  a3 <- argv_at P 3 ;;
  a4 <- argv_at P 4 ;;
  a5 <- argv_at P 5 ;;
  a6 <- argv_at P 6 ;;
  a7 <- argv_at P 7 ;;
  a8 <- argv_at P 8 ;;
  let command :=
    wsl_bash_c (python_path ++ " " ++ lien_path ++ " " ++ a3 ++ " " ++ a4
                  ++ " " ++ a5 ++ " " ++ a6 ++ " " ++ a7 ++ " " ++ a8
                  ++ " " ++ name) in
  print [VStr "command : "; VStr command] ;;
  result <- subprocess_run P (Shell command) ;;
  if negb (returncode result =? 0)%Z then
    print [VFmt "Error creating the environment. Return code: "
             (VInt (returncode result))] ;;
    print [VStr "result.stdout : "; VStr stars] ;;
    print [VStr (stdout result)] ;;
    print [VStr "result.stderr : "; VStr stars] ;;
    print [VStr (stderr result)]
  else
    print [VStr (stdout result)] ;;
    print [VStr "Environment created successfully."].

(** The two commands [call] builds, lines 215-220. *)
Definition activate_command (default_install_path name : string) : string :=
  let path_activate :=
    os_path_join P default_install_path ["Scripts"; "activate"] in
  "conda " ++ path_activate ++ " " ++ name.

Definition server_command (default_install_path name : string) : string :=
  let python_executable :=
    os_path_join P default_install_path ["envs"; name; "python"] in
  let current_file_path := module_file P in
  let current_directory := os_path_dirname P current_file_path in
  let path_server := os_path_join P current_directory ["server.py"] in
  python_executable ++ " " ++ path_server.

(** [call], lines 204-238. *)
Definition call (default_install_path : string) (args : Args) (name : string)
  : M (world P) unit :=
  subprocess_run P (Shell (activate_command default_install_path name)) ;;
  let command := server_command default_install_path name in
  server_process <- subprocess_Popen P (Shell command) ;;
  time_sleep P 2 ;;
  conn <- rpyc_connect_call P "localhost" 18817 ;;
  time_sleep P 2 ;;
  conn_root_running P args ;;
  result <- conn_root_stop P ;;
  (if result =? "DISCONNECTING" then conn_close P else ret tt) ;;
  print [VStr "on a ferme le server"].

(** The [__main__] block, lines 242-259. The dictionary is built before
    [setup] is called, so its six reads of [sys.argv] come first. *)
Definition main : M (world P) unit :=
  if (3 <? length (sys_argv P))%nat
     && match nth_error (sys_argv P) 1 with
        | Some a => a =? "setup"
        | None => false
        end
  then
    a3 <- argv_at P 3 ;;
    a4 <- argv_at P 4 ;;
    a5 <- argv_at P 5 ;;
    a6 <- argv_at P 6 ;;
    a7 <- argv_at P 7 ;;
    a8 <- argv_at P 8 ;;
    let args :=
      mkArgs a3 a4 (split " " a5) (split " " a6) (a7 =? "true") a8 224 0 1 in
    a2 <- argv_at P 2 ;;
    setup a2 args
  else ret tt.

End Program.

(* ===================================================================== *)
(** * Reading a trace                                                     *)
(* ===================================================================== *)

(** The children that ran to completion, in order. *)
Fixpoint commands_run (tr : list Event) : list Command :=
  match tr with
  | [] => []
  | EvRun c _ :: tr' => c :: commands_run tr'
  | _ :: tr' => commands_run tr'
  end.

(** The children started in the background, in order. *)
Fixpoint launched (tr : list Event) : list Command :=
  match tr with
  | [] => []
  | EvPopen c :: tr' => c :: launched tr'
  | _ :: tr' => launched tr'
  end.

(** The background children the program itself stopped. *)
Fixpoint terminated (tr : list Event) : list Command :=
  match tr with
  | [] => []
  | EvTerminate c :: tr' => c :: terminated tr'
  | _ :: tr' => terminated tr'
  end.

(** The lines handed to [print], in order. *)
Fixpoint printed (tr : list Event) : list (list PyVal) :=
  match tr with
  | [] => []
  | EvPrint a :: tr' => a :: printed tr'
  | _ :: tr' => printed tr'
  end.

(** Client connections opened and not closed. *)
Fixpoint open_connections (opened : nat) (tr : list Event) : nat :=
  match tr with
  | [] => opened
  | EvConnect _ _ None :: tr' => open_connections (S opened) tr'
  | EvClose :: tr' => open_connections (pred opened) tr'
  | _ :: tr' => open_connections opened tr'
  end.

(** The specification's reading of the existence probe: the listing
    succeeded and some line of it has the requested name as basename. *)
Definition env_listed (P : Platform) (name : string) (r : CompletedProcess)
  : bool :=
  (returncode r =? 0)%Z
  && existsb (fun line => os_path_basename P line =? name)
             (split newline (strip (stdout r))).

(** The specification's drive marker: a letter followed by a colon. *)
Definition is_letter (c : ascii) : bool :=
  let n := ord c in
  ((65 <=? n) && (n <=? 90) || (97 <=? n) && (n <=? 122))%N.

Fixpoint has_drive_marker (s : string) : bool :=
  match s with
  | EmptyString => false
  | String d s' =>
      match s' with
      | String c _ => is_letter d && Ascii.eqb c colon
      | EmptyString => false
      end || has_drive_marker s'
  end.

(* ===================================================================== *)
(** * Concrete platforms                                                  *)
(* ===================================================================== *)

Definition list_eqb (a b : list string) : bool :=
  if list_eq_dec string_dec a b then true else false.

Definition Command_eqb (a b : Command) : bool :=
  match a, b with
  | Argv x, Argv y => list_eqb x y
  | Shell x, Shell y => x =? y
  | _, _ => false
  end.

Definition succeeded : CompletedProcess := mkCompleted 0 "" "".

(** A Windows host whose world is the history of the children it has
    started, oldest first; [answer] decides what a child reports from the
    history before it, [refusal] what [rpyc.connect] raises, if anything.
    Every child starts and every output decodes. *)
Definition windows_host
  (answer : list Command -> Command -> CompletedProcess)
  (argv : list string) (bound : bool) (refusal : option exn) : Platform :=
  {| world := list Command;
     os_start := fun _ _ => None;
     os_decodes := fun _ _ => true;
     platform_system := "Windows";
     platform_machine := "AMD64";
     sys_argv := argv;
     module_file := "C:\Slicer\ALI_IOS\Func_Miniconda.py";
     os_path_join := nt_join;
     os_path_basename := nt_basename;
     os_path_dirname := nt_dirname;
     os_run := fun c h => (answer h c, (h ++ [c])%list);
     os_popen := fun c h => (h ++ [c])%list;
     os_sleep := fun _ h => h;
     rpyc_bound := bound;
     rpyc_connect := fun _ _ h => (refusal, h);
     rpyc_running := fun _ h => (None, h);
     rpyc_stop := fun h => (inr "DISCONNECTING", h);
     rpyc_close := fun h => h |}.

(** Every child succeeds silently. *)
Definition all_succeed (h : list Command) (c : Command) : CompletedProcess :=
  succeeded.

(** Every child succeeds but [bad], which exits with [code]. *)
Definition fails_on (bad : Command) (code : Z) (err : string)
  (h : list Command) (c : Command) : CompletedProcess :=
  if Command_eqb c bad then mkCompleted code "" err else succeeded.

Definition nl : string := String newline EmptyString.

(** A subsystem with a working conda: the listing shows [base], and [name]
    once its creation command has run. *)
Definition conda_answers (name : string) (h : list Command) (c : Command)
  : CompletedProcess :=
  if Command_eqb c envs_listing then
    mkCompleted 0
      ("# conda environments:" ++ nl ++ "#" ++ nl
       ++ "base                  *  /home/user/miniconda3" ++ nl
       ++ (if existsb (Command_eqb (Argv (create_argv name))) h
           then name ++ "     /home/user/miniconda3/envs/" ++ name ++ nl
           else "")
       ++ nl)
      ""
  else succeeded.

Definition job_argv : list string :=
  ["Func_Miniconda.py"; "setup"; "~/miniconda3"; "C:\data\scans";
   "C:\data\models"; "O C"; "UR1 UL1"; "true"; "C:\data\out"].

Definition job_args : Args :=
  mkArgs "C:\data\scans" "C:\data\models" ["O"; "C"] ["UR1"; "UL1"] true
         "C:\data\out" 224 0 1.

Definition env_name : string := "aliIOSCondaCli".

(** The world in which [call] reaches line 228, [rpyc.connect]. *)
Definition world_at_connect (P : Platform) (default_install_path name : string)
  (w : world P) : world P :=
  os_sleep P 2
    (os_popen P (Shell (server_command P default_install_path name))
       (snd (os_run P (Shell (activate_command P default_install_path name)) w))).

(** The ways line 228 can fail: the name [rpyc] is unbound, or the library
    raises. *)
Definition connect_fails (P : Platform) (default_install_path name : string)
  (w : world P) (e : exn) : Prop :=
  (rpyc_bound P = false /\ e = NameError "rpyc")
  \/ (rpyc_bound P = true
      /\ fst (rpyc_connect P "localhost" 18817
                 (world_at_connect P default_install_path name w)) = Some e).

(** The download commands of lines 29 and 48. *)
Definition miniconda_url : string :=
  "https://repo.anaconda.com/miniconda/Miniconda3-latest-Linux-x86_64.sh".

Definition wget_resumable (P : Platform) (default_install_path : string)
  : Command :=
  Argv ["wsl"; "wget"; "--continue"; "--tries=3"; miniconda_url; "-O";
        os_path_join P default_install_path ["miniconda.sh"]].

Definition wget_plain : Command :=
  Argv ["wsl"; "--"; "wget"; miniconda_url].

Definition runtime_probe : Command :=
  Argv ["wsl"; "test"; "-d"; "~/miniconda3"].

(** [ensureEnvironment] twice in succession, nothing in between. *)
Definition ensure_twice (P : Platform) (name : string) : M (world P) unit :=
  ensureEnvironment P name ;; ensureEnvironment P name.

(** Hosts used as examples: a subsystem with a working conda and no
    environment yet, and one whose listing command fails. *)
Definition fresh_host : Platform :=
  windows_host (conda_answers env_name) job_argv false None.

Definition broken_listing_host : Platform :=
  windows_host (fails_on envs_listing 1 "conda: command not found")
               job_argv false None.

(** The exception [e] was raised by the rpyc library or the worker. *)
Definition rpyc_failure (tr : list Event) (e : exn) : Prop :=
  In (EvConnect "localhost" 18817 (Some e)) tr
  \/ In (EvRemote "running" (Some e)) tr
  \/ In (EvRemote "stop" (Some e)) tr.

(** A host where the worker is reachable and the name [rpyc] is bound, and
    one where the connection is refused. *)
Definition ready_host : Platform :=
  windows_host (conda_answers env_name) job_argv true None.

Definition refused_host : Platform :=
  windows_host all_succeed job_argv true
               (Some (Foreign "ConnectionRefusedError")).

(** A host where only the last install command, scipy's, fails. *)
Definition scipy_install : string := last (install_commands env_name) "".

Definition scipy_error : string :=
  "ERROR: Could not find a version that satisfies the requirement scipy".

Definition scipy_fails_host : Platform :=
  windows_host (fails_on (Shell scipy_install) 1 scipy_error)
               job_argv false None.

(** A host without the runtime and without network: the runtime probe
    fails and every [wget] exits with 4, its code for a network failure. *)
Definition is_download (c : Command) : bool :=
  match c with
  | Argv (_ :: a :: b :: _) => (a =? "wget") || (b =? "wget")
  | _ => false
  end.

Definition offline_answers (h : list Command) (c : Command)
  : CompletedProcess :=
  if Command_eqb c runtime_probe then mkCompleted 1 "" ""
  else if is_download c
       then mkCompleted 4 "" "wget: unable to resolve host address"
       else succeeded.

Definition offline_host : Platform :=
  windows_host offline_answers job_argv false None.

(** A host whose subsystem has no [wget]: the shell answers 127. *)
Definition no_wget_host : Platform :=
  windows_host
    (fails_on wget_plain 127 "/bin/bash: line 1: wget: command not found")
    job_argv false None.

(** The command of line 187, from the six job arguments of [sys.argv]. *)
Definition dispatch_command (P : Platform) (a3 a4 a5 a6 a7 a8 : string)
  : Command :=
  Shell (wsl_bash_c
           ("~/miniconda3/bin/python" ++ " "
            ++ windows_to_linux_path
                 (os_path_join P (os_path_dirname P (module_file P))
                    ["link.py"])
            ++ " " ++ a3 ++ " " ++ a4 ++ " " ++ a5 ++ " " ++ a6 ++ " " ++ a7
            ++ " " ++ a8 ++ " " ++ "aliIOSCondaCli")).

(** A host where the creation of the environment fails. *)
Definition no_create_host : Platform :=
  windows_host
    (fails_on (Argv (create_argv env_name)) 1 "CondaHTTPError: HTTP 000")
    job_argv false None.

(** Lines 228-238 of [call]: what follows the launch of the worker and
    the first sleep. *)
Definition call_after_launch (P : Platform) (args : Args)
  : M (world P) unit :=
  conn <- rpyc_connect_call P "localhost" 18817 ;;
  time_sleep P 2 ;;
  conn_root_running P args ;;
  result <- conn_root_stop P ;;
  (if result =? "DISCONNECTING" then conn_close P else ret tt) ;;
  print [VStr "on a ferme le server"].

(** A computation that starts no child and stops none. *)
Definition childless {W A} (m : M W A) : Prop :=
  forall w, commands_run (events (m w)) = []
            /\ launched (events (m w)) = []
            /\ terminated (events (m w)) = [].

(** A computation whose exceptions come from the rpyc steps, or from the
    lookup of the unbound name [rpyc]. *)
Definition blames_rpyc {W A} (unbound : bool) (m : M W A) : Prop :=
  forall w e, result (m w) = Raise e ->
              (unbound = true /\ e = NameError "rpyc")
              \/ rpyc_failure (events (m w)) e.

(** What [createCondaEnv] prints about the creation command, lines
    107-114, and at its end, lines 145-148. *)
Definition creation_report (r : CompletedProcess) : list Event :=
  if negb (returncode r =? 0)%Z then
    [EvPrint [VFmt "Error creating the environment. Return code: "
                (VInt (returncode r))];
     EvPrint [VStr "result.stdout : "; VStr stars];
     EvPrint [VStr (stdout r)];
     EvPrint [VStr "result.stderr : "; VStr stars];
     EvPrint [VStr (stderr r)]]
  else [EvPrint [VStr "Environment created successfully."]].

Definition final_report (r : CompletedProcess) : list PyVal :=
  if (returncode r =? 0)%Z
  then [VStr "Environment created successfully:"; VStr (stdout r)]
  else [VStr "Failed to create environment:"; VStr (stderr r)].

(** The seven commands of [install_miniconda_on_wsl], lines 48-66, in
    order: six started with [check_call], the last with [run]. *)
Definition checked_commands : list Command :=
  [ wget_plain;
    Argv ["wsl"; "--"; "chmod"; "+x"; installer];
    Argv ["wsl"; "--"; "bash"; installer; "-b"];
    Argv ["wsl"; "--"; "rm"; installer];
    Argv ["wsl"; "--"; "bash"; "-c";
          "echo 'export PATH=" ++ dquote ++ "$HOME/miniconda3/bin:$PATH"
            ++ dquote ++ "' >> ~/.bashrc"];
    Argv ["wsl"; "--"; "bash"; "-c"; "source ~/.bashrc"] ].

Definition rpyc_install : Command :=
  Shell (wsl_bash_c "~/miniconda3/bin/pip install rpyc").

Definition miniconda_script : list Command :=
  (checked_commands ++ [rpyc_install])%list.

Definition miniconda_success : list PyVal :=
  [VStr ("Miniconda a " ++ e_acute ++ "t" ++ e_acute ++ " install"
           ++ e_acute ++ " avec succ" ++ e_grave ++ "s sur WSL.")].

Definition miniconda_failure (e : exn) : list PyVal :=
  [VFmt "Une erreur s'est produite lors de l'installation de Miniconda sur WSL: "
     (VExn e)].

(** A run of [check_call]s, one after the other, and then [k]. *)
Fixpoint checked_then {A} (P : Platform) (cmds : list Command)
  (k : M (world P) A) : M (world P) A :=
  match cmds with
  | [] => k
  | c :: rest => subprocess_check_call P c ;; checked_then P rest k
  end.

(** Do the commands, run one after the other from [w], all start and
    exit with 0? *)
Fixpoint checks_pass (P : Platform) (cmds : list Command) (w : world P)
  : bool :=
  match cmds with
  | [] => true
  | c :: rest =>
      match start_failure P c w with
      | Some _ => false
      | None =>
          (returncode (fst (os_run P c w)) =? 0)%Z
          && checks_pass P rest (snd (os_run P c w))
      end
  end.

(** On this host every child can be started, and every output decodes. *)
Definition always_starts (P : Platform) : Prop :=
  forall argv w, os_start P argv w = None.

Definition always_decodes (P : Platform) : Prop :=
  forall c w, os_decodes P c w = true.

(** Exceptions by kind. *)
Definition is_OSError (e : exn) : bool :=
  match e with
  | OSError _ => true
  | _ => false
  end.

Definition is_host_error (e : exn) : bool :=
  match e with
  | OSError _ | UnicodeDecodeError => true
  | _ => false
  end.

Definition is_host_or_index_error (e : exn) : bool :=
  match e with
  | OSError _ | UnicodeDecodeError | IndexError => true
  | _ => false
  end.

(** A Windows host like [windows_host], where starting a child and
    decoding its output may fail. *)
Definition faulty_host
  (answer : list Command -> Command -> CompletedProcess)
  (start : list string -> option string) (decodes : Command -> bool)
  : Platform :=
  {| world := list Command;
     platform_system := "Windows";
     platform_machine := "AMD64";
     sys_argv := job_argv;
     module_file := "C:\Slicer\ALI_IOS\Func_Miniconda.py";
     os_path_join := nt_join;
     os_path_basename := nt_basename;
     os_path_dirname := nt_dirname;
     os_run := fun c h => (answer h c, (h ++ [c])%list);
     os_start := fun argv _ => start argv;
     os_decodes := fun c _ => decodes c;
     os_popen := fun c h => (h ++ [c])%list;
     os_sleep := fun _ h => h;
     rpyc_bound := false;
     rpyc_connect := fun _ _ h => (None, h);
     rpyc_running := fun _ h => (None, h);
     rpyc_stop := fun h => (inr "DISCONNECTING", h);
     rpyc_close := fun h => h |}.

(** A host without WSL: no program called [wsl] can be started. *)
Definition no_wsl (argv : list string) : option string :=
  match argv with
  | prog :: _ => if prog =? "wsl" then Some "FileNotFoundError" else None
  | [] => None
  end.

Definition no_wsl_host : Platform :=
  faulty_host (conda_answers env_name) no_wsl (fun _ => true).

(** A host where the output of the creation command does not decode. *)
Definition undecodable_host : Platform :=
  faulty_host (conda_answers env_name) (fun _ => None)
    (fun c => negb (Command_eqb c (Argv (create_argv env_name)))).

(** The second command of the installer cannot be started. *)
Definition chmod_cannot_start (argv : list string) : option string :=
  if list_eqb argv ["wsl"; "--"; "chmod"; "+x"; installer]
  then Some "PermissionError" else None.


(** The world after the commands have run one after the other. *)
Fixpoint world_after (P : Platform) (cmds : list Command) (w : world P)
  : world P :=
  match cmds with
  | [] => w
  | c :: rest => world_after P rest (snd (os_run P c w))
  end.

(** The remote procedure calls of a trace, by method name, in order. *)
Fixpoint remote_calls (tr : list Event) : list string :=
  match tr with
  | [] => []
  | EvRemote m _ :: tr' => m :: remote_calls tr'
  | _ :: tr' => remote_calls tr'
  end.

(** The steps of a trace that go through rpyc. *)
Fixpoint rpc_steps (tr : list Event) : nat :=
  match tr with
  | [] => O
  | EvConnect _ _ _ :: tr' => S (rpc_steps tr')
  | EvRemote _ _ :: tr' => S (rpc_steps tr')
  | EvClose :: tr' => S (rpc_steps tr')
  | _ :: tr' => rpc_steps tr'
  end.

(** A computation that leaves no child in the background and never goes
    through rpyc. *)
Definition local_only {W A} (m : M W A) : Prop :=
  forall w, launched (events (m w)) = [] /\ rpc_steps (events (m w)) = O.

(** The worlds in which [call] reaches lines 231 and 234. *)
Definition world_at_running (P : Platform)
  (default_install_path name : string) (w : world P) : world P :=
  os_sleep P 2
    (snd (rpyc_connect P "localhost" 18817
            (world_at_connect P default_install_path name w))).

Definition world_at_stop (P : Platform) (default_install_path : string)
  (args : Args) (name : string) (w : world P) : world P :=
  snd (rpyc_running P args (world_at_running P default_install_path name w)).

(** Line 228 succeeds. *)
Definition connects (P : Platform) (default_install_path name : string)
  (w : world P) : Prop :=
  rpyc_bound P = true
  /\ fst (rpyc_connect P "localhost" 18817
            (world_at_connect P default_install_path name w)) = None.

(** How often [c] occurs in [s]. *)
Fixpoint count_char (c : ascii) (s : string) : nat :=
  match s with
  | EmptyString => O
  | String d s' => (if Ascii.eqb d c then 1 else 0) + count_char c s'
  end.

(** Further hosts used as examples: a Linux host; a Windows host whose
    subsystem has the runtime and the environment; hosts started with too
    few arguments or with another command; workers that fail the job or
    answer [stop] with something else. *)
(** [posixpath.join] when every later component is relative. *)
Definition posix_join (a : string) (parts : list string) : string :=
  fold_left
    (fun acc p =>
       match last_char acc with
       | Some c => if Ascii.eqb c slash then acc ++ p else acc ++ "/" ++ p
       | None => acc ++ p
       end) parts a.

(** [posixpath.dirname]: the head, without its trailing slashes unless it
    consists of slashes only. *)
Definition posix_dirname (p : string) : string :=
  let head := upto_last (Ascii.eqb slash) p in
  let trimmed :=
    string_of_list_ascii
      (rev (drop_while (Ascii.eqb slash) (rev (list_ascii_of_string head)))) in
  if trimmed =? "" then head else trimmed.

Definition linux_host : Platform :=
  {| world := list Command;
     os_start := fun _ _ => None;
     os_decodes := fun _ _ => true;
     platform_system := "Linux";
     platform_machine := "x86_64";
     sys_argv := job_argv;
     module_file := "/opt/Slicer/ALI_IOS/Func_Miniconda.py";
     os_path_join := posix_join;
     os_path_basename := posix_basename;
     os_path_dirname := posix_dirname;
     os_run := fun c h => (succeeded, (h ++ [c])%list);
     os_popen := fun c h => (h ++ [c])%list;
     os_sleep := fun _ h => h;
     rpyc_bound := false;
     rpyc_connect := fun _ _ h => (None, h);
     rpyc_running := fun _ h => (None, h);
     rpyc_stop := fun h => (inr "DISCONNECTING", h);
     rpyc_close := fun h => h |}.

Definition provisioned_answers (h : list Command) (c : Command)
  : CompletedProcess :=
  if Command_eqb c envs_listing then
    mkCompleted 0
      ("# conda environments:" ++ nl ++ "#" ++ nl
       ++ "base                  *  /home/user/miniconda3" ++ nl
       ++ env_name ++ "     /home/user/miniconda3/envs/" ++ env_name ++ nl
       ++ nl)
      ""
  else succeeded.

Definition provisioned_host : Platform :=
  windows_host provisioned_answers job_argv false None.

Definition short_argv_host : Platform :=
  windows_host (conda_answers env_name)
    ["Func_Miniconda.py"; "setup"; "~/miniconda3"; "C:\data\scans"]
    false None.

Definition other_command_host : Platform :=
  windows_host (conda_answers env_name)
    ["Func_Miniconda.py"; "status"; "~/miniconda3"; "C:\data\scans"]
    false None.

Definition worker_host (run_failure : option exn) (stop_answer : exn + string)
  : Platform :=
  {| world := list Command;
     os_start := fun _ _ => None;
     os_decodes := fun _ _ => true;
     platform_system := "Windows";
     platform_machine := "AMD64";
     sys_argv := job_argv;
     module_file := "C:\Slicer\ALI_IOS\Func_Miniconda.py";
     os_path_join := nt_join;
     os_path_basename := nt_basename;
     os_path_dirname := nt_dirname;
     os_run := fun c h => (succeeded, (h ++ [c])%list);
     os_popen := fun c h => (h ++ [c])%list;
     os_sleep := fun _ h => h;
     rpyc_bound := true;
     rpyc_connect := fun _ _ h => (None, h);
     rpyc_running := fun _ h => (run_failure, h);
     rpyc_stop := fun h => (stop_answer, h);
     rpyc_close := fun h => h |}.

(** A host where the second checked command of the installer fails, and
    one where only the unchecked last command fails. *)
Definition chmod_fails_host : Platform :=
  windows_host
    (fails_on (Argv ["wsl"; "--"; "chmod"; "+x"; installer]) 1
       "chmod: cannot access")
    job_argv false None.

Definition rpyc_install_fails_host : Platform :=
  windows_host (fails_on rpyc_install 1 "pip: network unreachable")
    job_argv false None.

(** A host where the creation command and the third install command fail. *)
Definition flaky_host : Platform :=
  windows_host
    (fun h c =>
       if Command_eqb c (Argv (create_argv env_name))
          || Command_eqb c (Shell (nth 2 (install_commands env_name) ""))
       then mkCompleted 1 "" "HTTP 000 CONNECTION FAILED" else succeeded)
    job_argv false None.

(** A host without the runtime, where the second command of the installer
    cannot be started. *)
Definition chmod_blocked_host : Platform :=
  faulty_host (fails_on runtime_probe 1 "") chmod_cannot_start
    (fun _ => true).

(** An exception of one kind or the other. *)
Definition either (h g : exn -> bool) (e : exn) : bool := h e || g e.

(** A computation that always returns. *)
Definition returns {W A} (m : M W A) : Prop :=
  forall w, exists a, result (m w) = Ok a.

(** A computation whose exceptions all satisfy [h]. *)
Definition raises_only {W A} (h : exn -> bool) (m : M W A) : Prop :=
  forall w e, result (m w) = Raise e -> h e = true.

(* ===================================================================== *)
(** * Properties of the string functions                                  *)
(* ===================================================================== *)

Ltac each_char c :=
  destruct c as [[] [] [] [] [] [] [] []]; vm_compute;
  try reflexivity; try discriminate; try tauto;
  try (intuition (discriminate || congruence)).

Lemma letter_facts (d : ascii) :
  is_letter d = true ->
  isspace d = false /\ Ascii.eqb d colon = false
  /\ Ascii.eqb d backslash = false
  /\ isspace (lower_char d) = false
  /\ Ascii.eqb (lower_char d) colon = false
  /\ Ascii.eqb (lower_char d) backslash = false.
Proof. each_char d. Qed.

Lemma rstrip_cons (c : ascii) (s : string) :
  isspace c = false -> rstrip (String c s) = String c (rstrip s).
Proof.
  intros Hc. simpl. rewrite Hc. destruct (rstrip s); reflexivity.
Qed.

Lemma rstrip_step (c : ascii) (s : string) :
  rstrip (String c s)
  = match rstrip s with
    | EmptyString => if isspace c then EmptyString else String c EmptyString
    | r => String c r
    end.
Proof. reflexivity. Qed.

Lemma rstrip_idem (s : string) : rstrip (rstrip s) = rstrip s.
Proof.
  induction s as [|c s IH]; [reflexivity|].
  rewrite rstrip_step. destruct (rstrip s) as [|c' r] eqn:E.
  - destruct (isspace c) eqn:Hc; [reflexivity|].
    rewrite rstrip_step. simpl. now rewrite Hc.
  - rewrite rstrip_step, IH. reflexivity.
Qed.

Lemma isspace_replaced (c : ascii) :
  isspace (if Ascii.eqb c backslash then slash else c) = isspace c.
Proof.
  destruct (Ascii.eqb_spec c backslash) as [->|]; reflexivity.
Qed.

Lemma rstrip_replace (s : string) :
  rstrip (replace backslash slash s) = replace backslash slash (rstrip s).
Proof.
  induction s as [|c s IH]; [reflexivity|].
  simpl replace. rewrite !rstrip_step, IH, isspace_replaced.
  destruct (rstrip s); simpl; [destruct (isspace c)|]; reflexivity.
Qed.

Lemma replace_idem (s : string) :
  replace backslash slash (replace backslash slash s)
  = replace backslash slash s.
Proof.
  induction s as [|c s IH]; [reflexivity|].
  simpl. rewrite IH. f_equal.
  destruct (Ascii.eqb_spec c backslash) as [->|]; [reflexivity|].
  now destruct (Ascii.eqb_spec c backslash).
Qed.

Lemma contains_rstrip (c : ascii) (s : string) :
  contains c s = false -> contains c (rstrip s) = false.
Proof.
  induction s as [|d s IH]; [reflexivity|].
  intros H. simpl in H. apply orb_false_iff in H as [Hd Hs].
  specialize (IH Hs). rewrite rstrip_step.
  destruct (rstrip s) as [|c' r].
  - destruct (isspace d); simpl; [reflexivity|]. now rewrite Hd.
  - change (Ascii.eqb d c || contains c (String c' r) = false).
    now rewrite Hd, IH.
Qed.

Lemma contains_colon_replace (s : string) :
  contains colon (replace backslash slash s) = contains colon s.
Proof.
  induction s as [|c s IH]; [reflexivity|].
  simpl. rewrite IH. f_equal.
  destruct (Ascii.eqb_spec c backslash) as [->|]; reflexivity.
Qed.

(** [split(sep, 1)] cuts at the first separator. *)
Lemma split1_app (sep : ascii) (pre post : string) :
  contains sep pre = false ->
  split1 sep (pre ++ String sep post) = [pre; post].
Proof.
  induction pre as [|c pre IH]; simpl; intros H.
  - now rewrite Ascii.eqb_refl.
  - apply orb_false_iff in H as [Hc Hp]. rewrite Hc, (IH Hp). reflexivity.
Qed.

Lemma contains_app (sep : ascii) (pre post : string) :
  contains sep (pre ++ String sep post) = true.
Proof.
  induction pre as [|c pre IH]; simpl.
  - now rewrite Ascii.eqb_refl.
  - rewrite IH. apply orb_true_r.
Qed.

(** A string that contains the separator has a first occurrence of it. *)
Lemma contains_first (sep : ascii) (s : string) :
  contains sep s = true ->
  exists pre post, s = pre ++ String sep post /\ contains sep pre = false.
Proof.
  induction s as [|c s IH]; simpl; [discriminate|].
  destruct (Ascii.eqb_spec c sep) as [->|Hne]; simpl.
  - intros _. exists EmptyString, s. split; reflexivity.
  - intros H. destruct (IH H) as (pre & post & -> & Hp).
    exists (String c pre), post. split; [reflexivity|].
    simpl. rewrite Hp. now destruct (Ascii.eqb_spec c sep).
Qed.

Lemma w2l_without_colon (s : string) :
  contains colon (normalized s) = false ->
  windows_to_linux_path s = normalized s.
Proof.
  unfold windows_to_linux_path, normalized. intros H. now rewrite H.
Qed.

Lemma w2l_at_first_colon (s pre post : string) :
  normalized s = pre ++ String colon post ->
  contains colon pre = false ->
  windows_to_linux_path s = "/mnt/" ++ lower pre ++ post.
Proof.
  unfold windows_to_linux_path, normalized. intros E Hpre.
  rewrite E, contains_app, split1_app by assumption. reflexivity.
Qed.

Lemma lstrip_head (s : string) (c : ascii) (t : string) :
  lstrip s = String c t -> isspace c = false.
Proof.
  induction s as [|a s IH]; simpl; [discriminate|].
  destruct (isspace a) eqn:Ha; [exact IH|].
  intros E. injection E as <- _. exact Ha.
Qed.

Lemma lstrip_strip (s : string) : lstrip (strip s) = strip s.
Proof.
  unfold strip. destruct (lstrip s) as [|c t] eqn:E; [reflexivity|].
  pose proof (lstrip_head _ _ _ E) as Hc.
  rewrite rstrip_cons by exact Hc. simpl. now rewrite Hc.
Qed.

Lemma strip_idem (s : string) : strip (strip s) = strip s.
Proof.
  unfold strip at 1. rewrite lstrip_strip. unfold strip. apply rstrip_idem.
Qed.

Lemma lstrip_replace (s : string) :
  lstrip (replace backslash slash s) = replace backslash slash (lstrip s).
Proof.
  induction s as [|c s IH]; [reflexivity|].
  simpl. rewrite isspace_replaced. destruct (isspace c); [exact IH|reflexivity].
Qed.

(** The normalized path has no surrounding whitespace left. *)
Lemma strip_normalized (s : string) : strip (normalized s) = normalized s.
Proof.
  unfold normalized. unfold strip at 1.
  rewrite lstrip_replace, lstrip_strip, rstrip_replace.
  f_equal. unfold strip. apply rstrip_idem.
Qed.

(** The normalized path has no backslash left. *)
Lemma replace_no_backslash (s : string) :
  contains backslash (replace backslash slash s) = false.
Proof.
  induction s as [|c s IH]; [reflexivity|].
  simpl. rewrite IH.
  destruct (Ascii.eqb_spec c backslash) as [->|Hne]; [reflexivity|].
  now destruct (Ascii.eqb_spec c backslash).
Qed.

(* ===================================================================== *)
(** * Path translation: properties                                        *)
(* ===================================================================== *)

(** C7, as stated, fails: a path without a drive marker (no letter is
    followed by a colon) but with a colon is not returned with its
    separators normalized only; it is rewritten under [/mnt/]. *)
Lemma C7_colon_without_drive_marker :
  has_drive_marker "./v1:2\data" = false
  /\ normalized "./v1:2\data" = "./v1:2/data"
  /\ windows_to_linux_path "./v1:2\data" = "/mnt/./v12/data"
  /\ windows_to_linux_path "./v1:2\data" <> normalized "./v1:2\data".
Proof.
  repeat split; try reflexivity. vm_compute. discriminate.
Qed.

(** C7, amended: for every input, [windows_to_linux_path] works on the
    normalized path (surrounding whitespace stripped, every backslash
    replaced by a slash). A normalized path without any colon is returned as
    it is; one that starts with a drive marker [X:] becomes [/mnt/x]
    followed by the remainder. The function is total. *)
Theorem windows_to_linux_path_cases (s : string) :
  strip (normalized s) = normalized s
  /\ contains backslash (normalized s) = false
  /\ (contains colon (normalized s) = false ->
      windows_to_linux_path s = normalized s)
  /\ (forall d rest,
        is_letter d = true ->
        normalized s = String d (String colon rest) ->
        windows_to_linux_path s = "/mnt/" ++ String (lower_char d) rest).
Proof.
  split; [apply strip_normalized|].
  split; [apply replace_no_backslash|].
  split; [apply w2l_without_colon|].
  intros d rest Hd E.
  apply (w2l_at_first_colon s (String d EmptyString) rest E).
  simpl. destruct (letter_facts d Hd) as (_ & -> & _). reflexivity.
Qed.

Lemma windows_to_linux_path_cases_witness :
  (contains colon (normalized "  data\scans ") = false
   /\ windows_to_linux_path "  data\scans " = "data/scans")
  /\ (is_letter "C" = true
      /\ normalized "C:\Users\me\scan.vtk " = "C:/Users/me/scan.vtk"
      /\ windows_to_linux_path "C:\Users\me\scan.vtk "
         = "/mnt/c/Users/me/scan.vtk").
Proof.
  split.
  - split; [reflexivity|].
    exact (proj1 (proj2 (proj2 (windows_to_linux_path_cases "  data\scans ")))
                 eq_refl).
  - split; [reflexivity|]. split; [reflexivity|].
    exact (proj2 (proj2 (proj2
                    (windows_to_linux_path_cases "C:\Users\me\scan.vtk ")))
                 "C"%char "/Users/me/scan.vtk" eq_refl eq_refl).
Defined.

(** C8: on a host path that is, surrounding whitespace aside, a drive
    letter, a colon and a remainder without further colon, translating the
    translation gives the translation back. *)
Theorem windows_to_linux_path_idempotent (s : string) (d : ascii)
  (rest : string) :
  strip s = String d (String colon rest) ->
  is_letter d = true ->
  contains colon rest = false ->
  windows_to_linux_path (windows_to_linux_path s) = windows_to_linux_path s.
Proof.
  intros E Hd Hrest.
  destruct (letter_facts d Hd) as (Hsp & Hcol & Hbs & Hlsp & Hlcol & Hlbs).
  (* the remainder has no trailing whitespace *)
  assert (Hr : rstrip rest = rest).
  { pose proof (strip_idem s) as H. rewrite E in H. unfold strip in H.
    simpl lstrip in H. rewrite Hsp in H.
    rewrite !rstrip_cons in H by (assumption || reflexivity).
    now injection H. }
  assert (En : normalized s
               = String d (String colon (replace backslash slash rest))).
  { unfold normalized. rewrite E. simpl. now rewrite Hbs. }
  assert (E1 : windows_to_linux_path s
               = "/mnt/" ++ String (lower_char d)
                              (replace backslash slash rest)).
  { apply (w2l_at_first_colon s (String d EmptyString) _ En).
    simpl. now rewrite Hcol. }
  rewrite E1.
  set (out := "/mnt/" ++ String (lower_char d) (replace backslash slash rest)).
  assert (Eo : normalized out = out).
  { unfold normalized, strip, out. simpl lstrip.
    rewrite !rstrip_cons by (assumption || reflexivity).
    rewrite rstrip_replace, Hr. simpl. now rewrite Hlbs, replace_idem. }
  apply eq_trans with (normalized out); [|exact Eo].
  apply w2l_without_colon. rewrite Eo. unfold out. simpl.
  now rewrite Hlcol, contains_colon_replace.
Qed.

Lemma windows_to_linux_path_idempotent_witness :
  strip "C:\Users\me\scan.vtk " = String "C" (String colon "\Users\me\scan.vtk")
  /\ windows_to_linux_path "C:\Users\me\scan.vtk " = "/mnt/c/Users/me/scan.vtk"
  /\ windows_to_linux_path (windows_to_linux_path "C:\Users\me\scan.vtk ")
     = windows_to_linux_path "C:\Users\me\scan.vtk ".
Proof.
  split; [reflexivity|]. split; [reflexivity|].
  exact (windows_to_linux_path_idempotent "C:\Users\me\scan.vtk " "C"
           "\Users\me\scan.vtk" eq_refl eq_refl eq_refl).
Defined.

(** C9: the rewrite is triggered by any colon of the normalized path, not
    by a drive marker: the path is cut at its first colon and becomes
    [/mnt/], the whole prefix in lower case, and the remainder. *)
Theorem windows_to_linux_path_any_colon (s : string) :
  contains colon (normalized s) = true ->
  exists pre post,
    normalized s = pre ++ String colon post
    /\ contains colon pre = false
    /\ windows_to_linux_path s = "/mnt/" ++ lower pre ++ post.
Proof.
  intros H. destruct (contains_first colon _ H) as (pre & post & E & Hpre).
  exists pre, post. repeat split; try assumption.
  now apply w2l_at_first_colon.
Qed.

Lemma windows_to_linux_path_any_colon_witness :
  contains colon (normalized "HTTP://Host/x") = true
  /\ windows_to_linux_path "HTTP://Host/x" = "/mnt/http//Host/x"
  /\ exists pre post,
       normalized "HTTP://Host/x" = pre ++ String colon post
       /\ contains colon pre = false
       /\ windows_to_linux_path "HTTP://Host/x" = "/mnt/" ++ lower pre ++ post.
Proof.
  split; [reflexivity|]. split; [reflexivity|].
  exact (windows_to_linux_path_any_colon "HTTP://Host/x" eq_refl).
Defined.

(* ===================================================================== *)
(** * Reasoning about computations                                        *)
(* ===================================================================== *)

Section Laws.
Context {W A B : Type}.

Lemma bind_ok (m : M W A) (f : A -> M W B) (w : W) (a : A) :
  result (m w) = Ok a ->
  result (bind m f w) = result (f a (final (m w)))
  /\ final (bind m f w) = final (f a (final (m w)))
  /\ events (bind m f w) = (events (m w) ++ events (f a (final (m w))))%list.
Proof. unfold bind; intros ->; simpl; auto. Qed.

Lemma bind_raise (m : M W A) (f : A -> M W B) (w : W) (e : exn) :
  result (m w) = Raise e ->
  result (bind m f w) = Raise e
  /\ final (bind m f w) = final (m w)
  /\ events (bind m f w) = events (m w).
Proof. unfold bind; intros ->; simpl; auto. Qed.

Lemma returns_bind (m : M W A) (f : A -> M W B) :
  returns m -> (forall a, returns (f a)) -> returns (bind m f).
Proof.
  intros Hm Hf w. destruct (Hm w) as [a Ha].
  destruct (Hf a (final (m w))) as [b Hb]. exists b.
  now rewrite (proj1 (bind_ok m f w a Ha)).
Qed.

Lemma raises_only_bind (h : exn -> bool) (m : M W A) (f : A -> M W B) :
  raises_only h m -> (forall a, raises_only h (f a)) ->
  raises_only h (bind m f).
Proof.
  intros Hm Hf w e. unfold bind.
  destruct (result (m w)) as [a|e'] eqn:E; simpl.
  - apply Hf.
  - intros [= <-]. now apply (Hm w).
Qed.

Lemma returns_raises_only (h : exn -> bool) (m : M W A) :
  returns m -> raises_only h m.
Proof.
  intros Hm w e He. destruct (Hm w) as [a Ha]. congruence.
Qed.

Lemma try_except_returns (m : M W A) (h : exn -> bool)
  (handler : exn -> M W A) :
  raises_only h m -> (forall e, returns (handler e)) ->
  returns (try_except m h handler).
Proof.
  intros Hm Hh w. unfold try_except.
  destruct (result (m w)) as [a|e] eqn:E.
  - exists a. exact E.
  - rewrite (Hm w e E). simpl. apply Hh.
Qed.

End Laws.

Lemma returns_ret {W A} (a : A) : returns (@ret W A a).
Proof. intros w. now exists a. Qed.

Lemma returns_print {W} (args : list PyVal) : returns (@print W args).
Proof. intros w. now exists tt. Qed.

Lemma commands_run_app (t u : list Event) :
  commands_run (t ++ u) = (commands_run t ++ commands_run u)%list.
Proof.
  induction t as [|[] t IH]; simpl; try rewrite IH; reflexivity.
Qed.

Lemma printed_app (t u : list Event) :
  printed (t ++ u) = (printed t ++ printed u)%list.
Proof.
  induction t as [|[] t IH]; simpl; try rewrite IH; reflexivity.
Qed.

Section Proofs.
Variable P : Platform.

(** A child given to the shell always runs. *)
Lemma returns_run_shell (line : string) :
  returns (subprocess_run P (Shell line)).
Proof. intros w. now eexists. Qed.

Lemma run_started (cmd : Command) (w : world P) :
  start_failure P cmd w = None ->
  subprocess_run P cmd w
  = mkOutcome (Ok (fst (os_run P cmd w))) (snd (os_run P cmd w))
              [EvRun cmd (fst (os_run P cmd w))].
Proof. unfold subprocess_run. now intros ->. Qed.

Lemma run_not_started (cmd : Command) (w : world P) (cls : string) :
  start_failure P cmd w = Some cls ->
  subprocess_run P cmd w = mkOutcome (Raise (OSError cls)) w [].
Proof. unfold subprocess_run. now intros ->. Qed.

(** [subprocess.run] raises nothing but the [OSError] of a child that
    cannot be started. *)
Lemma run_raises (cmd : Command) (w : world P) (e : exn) :
  result (subprocess_run P cmd w) = Raise e ->
  exists cls, e = OSError cls /\ start_failure P cmd w = Some cls.
Proof.
  unfold subprocess_run. destruct (start_failure P cmd w) as [cls|];
    simpl; [|discriminate].
  intros [= <-]. now exists cls.
Qed.

Lemma run_raises_only (cmd : Command) :
  raises_only is_OSError (subprocess_run P cmd).
Proof.
  intros w e H. destruct (run_raises cmd w e H) as (cls & -> & _).
  reflexivity.
Qed.

Lemma run_strict_raises_only (cmd : Command) :
  raises_only is_host_error (subprocess_run_strict P cmd).
Proof.
  intros w e. unfold subprocess_run_strict.
  destruct (start_failure P cmd w); simpl; [now intros [= <-]|].
  destruct (os_decodes P cmd w); simpl; [discriminate|now intros [= <-]].
Qed.

Lemma raises_only_weaken {W A} (h g : exn -> bool) (m : M W A) :
  (forall e, h e = true -> g e = true) ->
  raises_only h m -> raises_only g m.
Proof. intros Hhg Hm w e He. apply Hhg. exact (Hm w e He). Qed.

Lemma raises_only_try_except {W A} (h' h g : exn -> bool) (m : M W A)
  (k : exn -> M W A) :
  raises_only h' m ->
  (forall e, h' e = true -> h e = false -> g e = true) ->
  (forall e, raises_only g (k e)) ->
  raises_only g (try_except m h k).
Proof.
  intros Hm Hhg Hk w e. unfold try_except.
  destruct (result (m w)) as [a|e'] eqn:E; [congruence|].
  destruct (h e') eqn:Hh; simpl.
  - apply Hk.
  - rewrite E. intros [= <-]. apply Hhg; [exact (Hm w e' E)|exact Hh].
Qed.

(** [check_call] on a child that starts raises exactly on a non-zero exit
    code. *)
Lemma check_call_result (cmd : Command) (w : world P) :
  start_failure P cmd w = None ->
  let r := fst (os_run P cmd w) in
  result (subprocess_check_call P cmd w)
  = if (returncode r =? 0)%Z then Ok 0%Z
    else Raise (CalledProcessError (returncode r) cmd).
Proof.
  intros H. unfold subprocess_check_call, bind.
  rewrite (run_started cmd w H). simpl.
  now destruct (returncode (fst (os_run P cmd w)) =? 0)%Z.
Qed.

Lemma check_call_not_started (cmd : Command) (w : world P) (cls : string) :
  start_failure P cmd w = Some cls ->
  subprocess_check_call P cmd w = mkOutcome (Raise (OSError cls)) w [].
Proof.
  intros H. unfold subprocess_check_call, bind.
  now rewrite (run_not_started cmd w cls H).
Qed.

Lemma check_call_raises_only (cmd : Command) :
  raises_only (either is_CalledProcessError is_OSError)
              (subprocess_check_call P cmd).
Proof.
  intros w e. destruct (start_failure P cmd w) as [cls|] eqn:H.
  - rewrite (check_call_not_started cmd w cls H). simpl. now intros [= <-].
  - rewrite (check_call_result cmd w H). simpl.
    destruct (_ =? 0)%Z; [discriminate|]. now intros [= <-].
Qed.

(** The loop of [checkEnvCondaWsl] only reads: it answers whether some
    line has the name as basename. *)
Lemma checkEnv_loop_spec (name : string) (env_lines : list string)
  (w : world P) :
  let found :=
    existsb (fun line => os_path_basename P line =? name) env_lines in
  checkEnv_loop P name env_lines w
  = mkOutcome (Ok (if found then Some true else None)) w
              (if found then [EvPrint [VStr "Env conda exist"]] else []).
Proof.
  induction env_lines as [|line rest IH]; [reflexivity|].
  simpl. destruct (os_path_basename P line =? name); [reflexivity|].
  exact IH.
Qed.

(** The probe, when the listing can be started: one child, the listing;
    the answer is [env_listed]. *)
Lemma checkEnvCondaWsl_spec (name : string) (w : world P) :
  start_failure P envs_listing w = None ->
  let o := checkEnvCondaWsl P name w in
  let r := fst (os_run P envs_listing w) in
  result o = Ok (env_listed P name r)
  /\ final o = snd (os_run P envs_listing w)
  /\ commands_run (events o) = [envs_listing].
Proof.
  intros H. unfold checkEnvCondaWsl, env_listed, bind.
  rewrite (run_started envs_listing w H). simpl.
  destruct (returncode (fst (os_run P envs_listing w)) =? 0)%Z; simpl.
  - rewrite checkEnv_loop_spec. simpl.
    destruct (existsb _ _); simpl; auto.
  - auto.
Qed.

(** The probe, when the listing cannot be started. *)
Lemma checkEnvCondaWsl_not_started (name : string) (w : world P)
  (cls : string) :
  start_failure P envs_listing w = Some cls ->
  checkEnvCondaWsl P name w = mkOutcome (Raise (OSError cls)) w [].
Proof.
  intros H. unfold checkEnvCondaWsl, bind.
  now rewrite (run_not_started envs_listing w cls H).
Qed.

Lemma checkEnvCondaWsl_raises (name : string) (w : world P) (e : exn) :
  result (checkEnvCondaWsl P name w) = Raise e ->
  exists cls, e = OSError cls /\ start_failure P envs_listing w = Some cls.
Proof.
  destruct (start_failure P envs_listing w) as [cls|] eqn:H.
  - rewrite (checkEnvCondaWsl_not_started name w cls H). simpl.
    intros [= <-]. now exists cls.
  - rewrite (proj1 (checkEnvCondaWsl_spec name w H)). discriminate.
Qed.

Lemma install_loop_returns (commands : list string) (r : CompletedProcess) :
  returns (install_loop P commands r).
Proof.
  revert r. induction commands as [|c rest IH]; intros r; simpl.
  - apply returns_ret.
  - apply returns_bind; [apply returns_print|intros _].
    apply returns_bind; [apply returns_run_shell|intros r'].
    apply returns_bind; [|intros _; apply IH].
    destruct (_ =? 0)%Z; apply returns_print.
Qed.

Ltac returns_step :=
  first [ apply returns_ret | apply returns_print | apply returns_run_shell
        | apply install_loop_returns
        | match goal with
          | |- returns (if ?b then _ else _) => destruct b
          end
        | apply returns_bind; [|intro] ].

(** When the probe answers yes, nothing else is run. *)
Lemma ensureEnvironment_present (name : string) (w : world P) :
  start_failure P envs_listing w = None ->
  env_listed P name (fst (os_run P envs_listing w)) = true ->
  let o := ensureEnvironment P name w in
  result o = Ok tt
  /\ final o = snd (os_run P envs_listing w)
  /\ commands_run (events o) = [envs_listing].
Proof.
  intros Hs H. destruct (checkEnvCondaWsl_spec name w Hs) as (Hr & Hf & Hc).
  unfold ensureEnvironment.
  destruct (bind_ok (checkEnvCondaWsl P name)
              (fun exists_ => if negb exists_ then createCondaEnv P name
                              else ret tt) w _ Hr) as (E1 & E2 & E3).
  cbv zeta. rewrite E1, E2, E3, H. simpl.
  rewrite app_nil_r. auto.
Qed.

End Proofs.

Lemma launched_app (t u : list Event) :
  launched (t ++ u) = (launched t ++ launched u)%list.
Proof.
  induction t as [|[] t IH]; simpl; try rewrite IH; reflexivity.
Qed.

Lemma terminated_app (t u : list Event) :
  terminated (t ++ u) = (terminated t ++ terminated u)%list.
Proof.
  induction t as [|[] t IH]; simpl; try rewrite IH; reflexivity.
Qed.

(** One step of a sequence whose first computation visibly returns. *)
Ltac bind_ok_step :=
  cbv beta;
  match goal with
  | |- context [bind ?m ?f ?w] =>
      let R := fresh "R" in
      let F := fresh "F" in
      let V := fresh "V" in
      destruct (bind_ok m f w _ eq_refl) as (R & F & V);
      rewrite ?R, ?F, ?V; clear R F V
  end.

(** One step of a sequence whose first computation returns by [E]. *)
Ltac bind_ok_with E :=
  cbv beta;
  match goal with
  | |- context [bind ?m ?f ?w] =>
      let R := fresh "R" in
      let F := fresh "F" in
      let V := fresh "V" in
      destruct (bind_ok m f w _ E) as (R & F & V);
      rewrite ?R, ?F, ?V; clear R F V
  end.

(** One step of a sequence whose first outcome is known to be [Hm]. *)
Ltac bind_known Hm :=
  cbv beta;
  match type of Hm with
  | ?m ?w = mkOutcome (Ok ?a) _ _ =>
      match goal with
      | |- context [bind m ?f w] =>
          let R := fresh "R" in
          let F := fresh "F" in
          let V := fresh "V" in
          destruct (bind_ok m f w a ltac:(rewrite Hm; reflexivity))
            as (R & F & V);
          rewrite ?R, ?F, ?V; clear R F V;
          rewrite ?Hm; cbn [result final events]
      end
  | ?m ?w = mkOutcome (Raise ?e) _ _ =>
      match goal with
      | |- context [bind m ?f w] =>
          let R := fresh "R" in
          let F := fresh "F" in
          let V := fresh "V" in
          destruct (bind_raise m f w e ltac:(rewrite Hm; reflexivity))
            as (R & F & V);
          rewrite ?R, ?F, ?V; clear R F V;
          rewrite ?Hm; cbn [result final events]
      end
  end.

(* ===================================================================== *)
(** * Environment creation: lemmas                                        *)
(* ===================================================================== *)

Section Creation.
Variable P : Platform.

(** One turn of the install loop. *)
Lemma install_loop_cons (c : string) (rest : list string)
  (r0 : CompletedProcess) (w : world P) :
  let r1 := fst (os_run P (Shell c) w) in
  let t := install_loop P rest r1 (snd (os_run P (Shell c) w)) in
  result (install_loop P (c :: rest) r0 w) = result t
  /\ events (install_loop P (c :: rest) r0 w)
     = EvPrint [VStr "command : "; VStr c]
       :: EvRun (Shell c) r1
       :: EvPrint [VStr ((if (returncode r1 =? 0)%Z
                          then "Successfully executed: "
                          else "Failed to execute: ") ++ c)]
       :: events t.
Proof.
  simpl install_loop. do 2 bind_ok_step. cbv beta.
  cbn [final events subprocess_run start_failure print emit app].
  destruct (returncode (fst (os_run P (Shell c) w)) =? 0)%Z;
    bind_ok_step; cbv beta; split; reflexivity.
Qed.

(** The install loop runs every command of its list, in order, whatever
    the exit codes. *)
Lemma install_loop_commands (commands : list string) (r0 : CompletedProcess)
  (w : world P) :
  commands_run (events (install_loop P commands r0 w)) = map Shell commands.
Proof.
  revert r0 w. induction commands as [|c rest IH]; intros r0 w;
    [reflexivity|].
  destruct (install_loop_cons c rest r0 w) as (_ & ->).
  simpl. now rewrite IH.
Qed.

(** A command of the loop that exits with a non-zero code is reported as
    failed. *)
Lemma install_loop_logs_failures (commands : list string)
  (r0 : CompletedProcess) (w : world P) (cmd : string)
  (r : CompletedProcess) :
  In (EvRun (Shell cmd) r) (events (install_loop P commands r0 w)) ->
  (returncode r <> 0)%Z ->
  In [VStr ("Failed to execute: " ++ cmd)]
     (printed (events (install_loop P commands r0 w))).
Proof.
  revert r0 w. induction commands as [|c rest IH]; intros r0 w;
    [intros []|].
  destruct (install_loop_cons c rest r0 w) as (_ & ->).
  intros Hin Hrc. simpl in Hin |- *.
  destruct Hin as [Hin|[Hin|[Hin|Hin]]]; try discriminate.
  - injection Hin as <- <-. right. left.
    apply Z.eqb_neq in Hrc. now rewrite Hrc.
  - right. right. now apply (IH _ _ Hin).
Qed.

(** What the loop hands on is the completed process of its last command. *)
Lemma install_loop_last (commands : list string) (r0 : CompletedProcess)
  (w : world P) :
  exists r,
    result (install_loop P commands r0 w) = Ok r
    /\ (commands <> [] ->
        In (EvRun (Shell (last commands "")) r)
           (events (install_loop P commands r0 w))).
Proof.
  revert r0 w. induction commands as [|c rest IH]; intros r0 w.
  - exists r0. split; [reflexivity|]. now intros [].
  - destruct (install_loop_cons c rest r0 w) as (-> & ->).
    destruct (IH (fst (os_run P (Shell c) w)) (snd (os_run P (Shell c) w)))
      as (r & Hr & Hin).
    exists r. split; [exact Hr|]. intros _.
    destruct rest as [|c' rest'].
    + simpl in Hr. injection Hr as <-. right. now left.
    + do 3 right. apply Hin. discriminate.
Qed.

(** The creation command, when it starts and its output decodes. *)
Lemma create_outcome (name : string) (w : world P) :
  start_failure P (Argv (create_argv name)) w = None ->
  os_decodes P (Argv (create_argv name)) w = true ->
  subprocess_run_strict P (Argv (create_argv name)) w
  = mkOutcome (Ok (fst (os_run P (Argv (create_argv name)) w)))
              (snd (os_run P (Argv (create_argv name)) w))
              [EvRun (Argv (create_argv name))
                     (fst (os_run P (Argv (create_argv name)) w))].
Proof. unfold subprocess_run_strict. now intros -> ->. Qed.

(** [createCondaEnv], when the creation command starts and its output
    decodes, is the creation command and its report, the package listing,
    the install loop, and the closing report on what the loop handed on. *)
Lemma createCondaEnv_decompose (name : string) (w : world P) :
  start_failure P (Argv (create_argv name)) w = None ->
  os_decodes P (Argv (create_argv name)) w = true ->
  let r1 := fst (os_run P (Argv (create_argv name)) w) in
  let w1 := snd (os_run P (Argv (create_argv name)) w) in
  let listing := Shell "~/miniconda3/bin/conda list pip" in
  let r2 := fst (os_run P listing w1) in
  let t := install_loop P (install_commands name) r2
             (snd (os_run P listing w1)) in
  exists r,
    result t = Ok r
    /\ result (createCondaEnv P name w) = Ok tt
    /\ events (createCondaEnv P name w)
       = (((EvPrint [VFmt "command_to_execute : " (VList (create_argv name))]
            :: EvRun (Argv (create_argv name)) r1 :: creation_report r1)
           ++ EvRun listing r2 :: EvPrint [VStr (stdout r2)] :: events t)
          ++ [EvPrint (final_report r)])%list.
Proof.
  intros Hs Hd r1 w1 listing r2 t.
  destruct (install_loop_returns P (install_commands name) r2
              (snd (os_run P listing w1))) as [r Hr].
  exists r. split; [exact Hr|].
  pose proof (create_outcome name w Hs Hd) as Hc.
  subst t r2 listing w1 r1.
  unfold createCondaEnv. bind_ok_step. cbv beta.
  cbn [final events print emit app].
  bind_known Hc.
  match goal with
  | |- context [bind (if ?b then ?x else ?y) ?f ?w'] =>
      assert (Hrep : result ((if b then x else y) w') = Ok tt
                     /\ final ((if b then x else y) w') = w'
                     /\ events ((if b then x else y) w')
                        = creation_report
                            (fst (os_run P (Argv (create_argv name)) w)))
        by (unfold creation_report; destruct b; repeat split; reflexivity);
      destruct Hrep as (Hu & Hf & He)
  end.
  bind_ok_with Hu. rewrite Hf, He.
  do 2 bind_ok_step. cbv beta.
  cbn [final events subprocess_run start_failure print emit].
  bind_ok_with Hr. cbv beta.
  unfold final_report.
  destruct (returncode r =? 0)%Z; cbn [result events print emit];
    (split; [reflexivity|]); rewrite <- !app_assoc; reflexivity.
Qed.

(** [createCondaEnv] when the creation command cannot be started: the
    [OSError] leaves it before any child has run. *)
Lemma createCondaEnv_not_started (name : string) (w : world P)
  (cls : string) :
  start_failure P (Argv (create_argv name)) w = Some cls ->
  result (createCondaEnv P name w) = Raise (OSError cls)
  /\ final (createCondaEnv P name w) = w
  /\ events (createCondaEnv P name w)
     = [EvPrint [VFmt "command_to_execute : " (VList (create_argv name))]].
Proof.
  intros H.
  assert (Hc : subprocess_run_strict P (Argv (create_argv name)) w
               = mkOutcome (Raise (OSError cls)) w [])
    by (unfold subprocess_run_strict; now rewrite H).
  unfold createCondaEnv. bind_ok_step. cbv beta.
  cbn [final events print emit app].
  bind_known Hc. repeat split; reflexivity.
Qed.

(** [createCondaEnv] when the output of the creation command does not
    decode: the error leaves it after that one command. *)
Lemma createCondaEnv_undecodable (name : string) (w : world P) :
  start_failure P (Argv (create_argv name)) w = None ->
  os_decodes P (Argv (create_argv name)) w = false ->
  result (createCondaEnv P name w) = Raise UnicodeDecodeError
  /\ final (createCondaEnv P name w)
     = snd (os_run P (Argv (create_argv name)) w)
  /\ events (createCondaEnv P name w)
     = [EvPrint [VFmt "command_to_execute : " (VList (create_argv name))];
        EvRun (Argv (create_argv name))
              (fst (os_run P (Argv (create_argv name)) w))].
Proof.
  intros Hs Hd.
  assert (Hc : subprocess_run_strict P (Argv (create_argv name)) w
               = mkOutcome (Raise UnicodeDecodeError)
                   (snd (os_run P (Argv (create_argv name)) w))
                   [EvRun (Argv (create_argv name))
                          (fst (os_run P (Argv (create_argv name)) w))])
    by (unfold subprocess_run_strict; now rewrite Hs, Hd).
  unfold createCondaEnv. bind_ok_step. cbv beta.
  cbn [final events print emit app].
  bind_known Hc. repeat split; reflexivity.
Qed.

(** Once the creation command starts, it is the first command run. *)
Lemma createCondaEnv_first (name : string) (w : world P) :
  start_failure P (Argv (create_argv name)) w = None ->
  exists rest,
    commands_run (events (createCondaEnv P name w))
    = Argv (create_argv name) :: rest.
Proof.
  intros Hs. destruct (os_decodes P (Argv (create_argv name)) w) eqn:Hd.
  - destruct (createCondaEnv_decompose name w Hs Hd) as (r & _ & _ & ->).
    rewrite !commands_run_app. cbn [commands_run app]. now eexists.
  - destruct (createCondaEnv_undecodable name w Hs Hd) as (_ & _ & ->).
    now eexists.
Qed.

Lemma creation_report_silent (r1 : CompletedProcess) :
  commands_run (creation_report r1) = [].
Proof. unfold creation_report. now destruct (negb _). Qed.

(** [createCondaEnv], when the creation command starts and its output
    decodes, runs the creation command, the package listing and then
    every install command, whatever the exit codes. *)
Lemma createCondaEnv_commands (name : string) (w : world P) :
  start_failure P (Argv (create_argv name)) w = None ->
  os_decodes P (Argv (create_argv name)) w = true ->
  let o := createCondaEnv P name w in
  result o = Ok tt
  /\ commands_run (events o)
     = Argv (create_argv name) :: Shell "~/miniconda3/bin/conda list pip"
       :: map Shell (install_commands name).
Proof.
  intros Hs Hd o. subst o.
  destruct (createCondaEnv_decompose name w Hs Hd) as (r & _ & R & ->).
  split; [exact R|].
  rewrite !commands_run_app. cbn [commands_run app].
  rewrite creation_report_silent, install_loop_commands. cbn [app].
  now rewrite app_nil_r.
Qed.

(** The closing report of [createCondaEnv] follows the exit code of the
    last install command. *)
Lemma createCondaEnv_final_report (name : string) (w : world P) :
  start_failure P (Argv (create_argv name)) w = None ->
  os_decodes P (Argv (create_argv name)) w = true ->
  let o := createCondaEnv P name w in
  exists r,
    In (EvRun (Shell (last (install_commands name) "")) r) (events o)
    /\ last (printed (events o)) [] = final_report r.
Proof.
  intros Hs Hd o. subst o.
  destruct (createCondaEnv_decompose name w Hs Hd) as (r & Hr & _ & ->).
  match type of Hr with
  | result (install_loop P ?c ?r0 ?w') = _ =>
      destruct (install_loop_last c r0 w') as (r' & Hr' & Hin)
  end.
  rewrite Hr in Hr'. injection Hr' as <-.
  exists r. split.
  - apply in_or_app. left. apply in_or_app. right. do 2 right.
    apply Hin. discriminate.
  - rewrite printed_app. apply last_last.
Qed.

(** Nothing but the failure to start the creation command or to decode
    its output makes [createCondaEnv] raise. *)
Lemma createCondaEnv_raises (name : string) (w : world P) (e : exn) :
  result (createCondaEnv P name w) = Raise e ->
  (exists cls, e = OSError cls
               /\ start_failure P (Argv (create_argv name)) w = Some cls)
  \/ (e = UnicodeDecodeError
      /\ start_failure P (Argv (create_argv name)) w = None
      /\ os_decodes P (Argv (create_argv name)) w = false).
Proof.
  destruct (start_failure P (Argv (create_argv name)) w) as [cls|] eqn:Hs.
  - rewrite (proj1 (createCondaEnv_not_started name w cls Hs)).
    intros [= <-]. left. now exists cls.
  - destruct (os_decodes P (Argv (create_argv name)) w) eqn:Hd.
    + destruct (createCondaEnv_decompose name w Hs Hd) as (r & _ & -> & _).
      discriminate.
    + rewrite (proj1 (createCondaEnv_undecodable name w Hs Hd)).
      intros [= <-]. now right.
Qed.

End Creation.

(* ===================================================================== *)
(** * The existence probe: lemmas and properties                          *)
(* ===================================================================== *)

Section Environment.
Variable P : Platform.

(** When the probe answers no, the creation follows. *)
Lemma ensureEnvironment_absent (name : string) (w : world P) :
  start_failure P envs_listing w = None ->
  env_listed P name (fst (os_run P envs_listing w)) = false ->
  let t := createCondaEnv P name (snd (os_run P envs_listing w)) in
  result (ensureEnvironment P name w) = result t
  /\ final (ensureEnvironment P name w) = final t
  /\ commands_run (events (ensureEnvironment P name w))
     = envs_listing :: commands_run (events t).
Proof.
  intros Hs H. destruct (checkEnvCondaWsl_spec P name w Hs) as (Hr & Hf & Hc).
  cbv zeta in Hr, Hf, Hc. unfold ensureEnvironment.
  destruct (bind_ok (checkEnvCondaWsl P name)
              (fun exists_ => if negb exists_ then createCondaEnv P name
                              else ret tt) w _ Hr) as (E1 & E2 & E3).
  cbv zeta. rewrite E1, E2, E3, H, Hf, commands_run_app, Hc.
  cbv beta iota delta [negb]. auto.
Qed.

(** Nothing but a child that cannot be started, or the creation output
    that does not decode, makes [ensureEnvironment] raise. *)
Lemma ensureEnvironment_raises_only (name : string) :
  raises_only is_host_error (ensureEnvironment P name).
Proof.
  unfold ensureEnvironment. apply raises_only_bind.
  - intros w e H. destruct (checkEnvCondaWsl_raises P name w e H)
      as (cls & -> & _). reflexivity.
  - intros b. destruct (negb b).
    + intros w e H.
      destruct (createCondaEnv_raises P name w e H)
        as [(cls & -> & _)|(-> & _)]; reflexivity.
    + apply returns_raises_only, returns_ret.
Qed.

End Environment.







(* ===================================================================== *)
(** * Runtime installation: lemmas                                        *)
(* ===================================================================== *)

Lemma try_except_ok {W A} (m : M W A) (h : exn -> bool)
  (k : exn -> M W A) (w : W) (a : A) :
  result (m w) = Ok a -> try_except m h k w = m w.
Proof. unfold try_except. now intros ->. Qed.

Lemma try_except_caught {W A} (m : M W A) (h : exn -> bool)
  (k : exn -> M W A) (w : W) (e : exn) :
  result (m w) = Raise e -> h e = true ->
  try_except m h k w
  = mkOutcome (result (k e (final (m w)))) (final (k e (final (m w))))
              (events (m w) ++ events (k e (final (m w))))%list.
Proof. unfold try_except. now intros -> ->. Qed.

Lemma try_except_passed {W A} (m : M W A) (h : exn -> bool)
  (k : exn -> M W A) (w : W) (e : exn) :
  result (m w) = Raise e -> h e = false -> try_except m h k w = m w.
Proof. unfold try_except. now intros -> ->. Qed.

(** What was done before an exception stays done. *)
Lemma bind_events_prefix {W A B} (m : M W A) (f : A -> M W B) (w : W) :
  exists tail, events (bind m f w) = (events (m w) ++ tail)%list.
Proof.
  unfold bind. destruct (result (m w)); simpl.
  - eexists. reflexivity.
  - exists []. now rewrite app_nil_r.
Qed.

Lemma try_except_events_prefix {W A} (m : M W A) (h : exn -> bool)
  (k : exn -> M W A) (w : W) :
  exists tail, events (try_except m h k w) = (events (m w) ++ tail)%list.
Proof.
  unfold try_except. destruct (result (m w)) as [a|e].
  - exists []. now rewrite app_nil_r.
  - destruct (h e); simpl.
    + eexists. reflexivity.
    + exists []. now rewrite app_nil_r.
Qed.

Section Installer.
Variable P : Platform.

Lemma check_call_started (cmd : Command) (w : world P) :
  start_failure P cmd w = None ->
  let r := fst (os_run P cmd w) in
  result (subprocess_check_call P cmd w)
  = (if (returncode r =? 0)%Z then Ok 0%Z
     else Raise (CalledProcessError (returncode r) cmd))
  /\ final (subprocess_check_call P cmd w) = snd (os_run P cmd w)
  /\ events (subprocess_check_call P cmd w) = [EvRun cmd r].
Proof.
  intros H. unfold subprocess_check_call, bind.
  rewrite (run_started P cmd w H). simpl.
  destruct (returncode (fst (os_run P cmd w)) =? 0)%Z; auto.
Qed.

(** Checked commands that all start and exit with 0 are all run, and what
    follows them goes on from the world they leave. *)
Lemma checked_then_app {A} (cmds rest : list Command) (k : M (world P) A)
  (w : world P) :
  checks_pass P cmds w = true ->
  let o := checked_then P (cmds ++ rest) k w in
  let t := checked_then P rest k (world_after P cmds w) in
  result o = result t
  /\ final o = final t
  /\ commands_run (events o) = (cmds ++ commands_run (events t))%list
  /\ printed (events o) = printed (events t).
Proof.
  revert w. induction cmds as [|c cmds IH]; intros w H; [simpl; auto|].
  cbn [checks_pass] in H.
  destruct (start_failure P c w) eqn:Hs; [discriminate|].
  apply andb_true_iff in H as [Hc Hrest].
  destruct (check_call_started c w Hs) as (R & F & V).
  cbv zeta in R. rewrite Hc in R.
  destruct (bind_ok (subprocess_check_call P c)
              (fun _ => checked_then P (cmds ++ rest) k) w _ R)
    as (E1 & E2 & E3).
  destruct (IH _ Hrest) as (I1 & I2 & I3 & I4).
  cbv zeta. cbn [checked_then world_after app].
  rewrite E1, E2, E3, F, V, commands_run_app, printed_app.
  cbn [commands_run printed app]. rewrite I1, I2, I3, I4. auto.
Qed.

Lemma checked_then_pass {A} (cmds : list Command) (k : M (world P) A)
  (w : world P) :
  checks_pass P cmds w = true ->
  let o := checked_then P cmds k w in
  let t := k (world_after P cmds w) in
  result o = result t
  /\ final o = final t
  /\ commands_run (events o) = (cmds ++ commands_run (events t))%list
  /\ printed (events o) = printed (events t).
Proof.
  intros H. pose proof (checked_then_app cmds [] k w H) as I.
  cbv zeta in I. rewrite app_nil_r in I. exact I.
Qed.

(** The first checked command that exits with a non-zero code ends the
    run: it is raised as [CalledProcessError]. *)
Lemma checked_then_exit {A} (pre post : list Command) (c : Command)
  (k : M (world P) A) (w : world P) :
  checks_pass P pre w = true ->
  start_failure P c (world_after P pre w) = None ->
  (returncode (fst (os_run P c (world_after P pre w))) <> 0)%Z ->
  let o := checked_then P (pre ++ c :: post) k w in
  result o
  = Raise (CalledProcessError
             (returncode (fst (os_run P c (world_after P pre w)))) c)
  /\ commands_run (events o) = (pre ++ [c])%list
  /\ printed (events o) = [].
Proof.
  intros Hp Hs Hrc.
  destruct (checked_then_app pre (c :: post) k w Hp) as (R & _ & C & Pr).
  cbv zeta in *. rewrite R, C, Pr. clear R C Pr.
  destruct (check_call_started c _ Hs) as (R & _ & V). cbv zeta in R.
  apply Z.eqb_neq in Hrc. rewrite Hrc in R.
  destruct (bind_raise (subprocess_check_call P c)
              (fun _ => checked_then P post k) _ _ R) as (E1 & _ & E3).
  cbn [checked_then]. rewrite E1, E3, V. auto.
Qed.

(** A checked command that cannot be started ends the run with its
    [OSError]; it has not run. *)
Lemma checked_then_blocked {A} (pre post : list Command) (c : Command)
  (k : M (world P) A) (w : world P) (cls : string) :
  checks_pass P pre w = true ->
  start_failure P c (world_after P pre w) = Some cls ->
  let o := checked_then P (pre ++ c :: post) k w in
  result o = Raise (OSError cls)
  /\ commands_run (events o) = pre
  /\ printed (events o) = [].
Proof.
  intros Hp Hs.
  destruct (checked_then_app pre (c :: post) k w Hp) as (R & _ & C & Pr).
  cbv zeta in *. rewrite R, C, Pr. clear R C Pr.
  pose proof (check_call_not_started P c _ cls Hs) as N.
  assert (R : result (subprocess_check_call P c (world_after P pre w))
              = Raise (OSError cls)) by now rewrite N.
  destruct (bind_raise (subprocess_check_call P c)
              (fun _ => checked_then P post k) _ _ R) as (E1 & _ & E3).
  cbn [checked_then]. rewrite E1, E3, N. cbn [events commands_run printed].
  rewrite app_nil_r. auto.
Qed.

Lemma checked_then_raises_only {A} (cmds : list Command)
  (k : M (world P) A) :
  raises_only (either is_CalledProcessError is_OSError) k ->
  raises_only (either is_CalledProcessError is_OSError)
              (checked_then P cmds k).
Proof.
  intros Hk. induction cmds as [|c cmds IH]; [exact Hk|].
  cbn [checked_then]. apply raises_only_bind.
  - apply check_call_raises_only.
  - intros _. exact IH.
Qed.

(** [install_miniconda_on_wsl] is its six checked commands, then the
    unchecked install of rpyc and the success message, under its
    handler. *)
Lemma install_miniconda_on_wsl_unfold :
  install_miniconda_on_wsl P
  = try_except
      (checked_then P checked_commands
         (subprocess_run P rpyc_install ;; print miniconda_success))
      is_CalledProcessError
      (fun e => print (miniconda_failure e)).
Proof. reflexivity. Qed.

Lemma install_miniconda_on_wsl_pass (w : world P) :
  checks_pass P checked_commands w = true ->
  let o := install_miniconda_on_wsl P w in
  result o = Ok tt
  /\ commands_run (events o) = miniconda_script
  /\ printed (events o) = [miniconda_success].
Proof.
  intros H. rewrite install_miniconda_on_wsl_unfold.
  destruct (checked_then_pass checked_commands
              (subprocess_run P rpyc_install ;; print miniconda_success)
              w H) as (R & _ & C & Pr).
  cbv zeta. rewrite (try_except_ok _ _ _ w tt) by (rewrite R; reflexivity).
  rewrite R, C, Pr. repeat split; reflexivity.
Qed.

Lemma install_miniconda_on_wsl_exit (pre post : list Command) (c : Command)
  (w : world P) :
  checked_commands = (pre ++ c :: post)%list ->
  checks_pass P pre w = true ->
  start_failure P c (world_after P pre w) = None ->
  (returncode (fst (os_run P c (world_after P pre w))) <> 0)%Z ->
  let o := install_miniconda_on_wsl P w in
  result o = Ok tt
  /\ commands_run (events o) = (pre ++ [c])%list
  /\ printed (events o)
     = [miniconda_failure
          (CalledProcessError
             (returncode (fst (os_run P c (world_after P pre w)))) c)].
Proof.
  intros E Hp Hs Hrc. rewrite install_miniconda_on_wsl_unfold, E.
  destruct (checked_then_exit pre post c
              (subprocess_run P rpyc_install ;; print miniconda_success)
              w Hp Hs Hrc) as (R & C & Pr).
  cbv zeta. rewrite (try_except_caught _ _ _ w _ R eq_refl).
  cbn [result events final print emit].
  rewrite commands_run_app, printed_app, C, Pr.
  cbn [commands_run printed app]. rewrite app_nil_r. auto.
Qed.

Lemma install_miniconda_on_wsl_blocked (pre post : list Command)
  (c : Command) (w : world P) (cls : string) :
  checked_commands = (pre ++ c :: post)%list ->
  checks_pass P pre w = true ->
  start_failure P c (world_after P pre w) = Some cls ->
  let o := install_miniconda_on_wsl P w in
  result o = Raise (OSError cls)
  /\ commands_run (events o) = pre
  /\ printed (events o) = [].
Proof.
  intros E Hp Hs. rewrite install_miniconda_on_wsl_unfold, E.
  destruct (checked_then_blocked pre post c
              (subprocess_run P rpyc_install ;; print miniconda_success)
              w cls Hp Hs) as (R & C & Pr).
  cbv zeta. rewrite (try_except_passed _ _ _ w _ R eq_refl). auto.
Qed.

(** A failed download ends [install_miniconda_on_wsl] at its first
    command; the error is printed and the function returns. *)
Lemma install_miniconda_on_wsl_download_fails (w : world P) :
  start_failure P wget_plain w = None ->
  (returncode (fst (os_run P wget_plain w)) <> 0)%Z ->
  let r := fst (os_run P wget_plain w) in
  let o := install_miniconda_on_wsl P w in
  result o = Ok tt
  /\ final o = snd (os_run P wget_plain w)
  /\ events o
     = [EvRun wget_plain r;
        EvPrint (miniconda_failure
                   (CalledProcessError (returncode r) wget_plain))].
Proof.
  intros Hs Hrc.
  destruct (check_call_started wget_plain w Hs) as (R & F & V).
  cbv zeta in R. apply Z.eqb_neq in Hrc. rewrite Hrc in R.
  unfold install_miniconda_on_wsl.
  match goal with
  | |- context [try_except (bind ?m ?f) _ _ w] =>
      change m with (subprocess_check_call P wget_plain);
      destruct (bind_raise (subprocess_check_call P wget_plain) f w _ R)
        as (E1 & E2 & E3)
  end.
  unfold try_except. cbv zeta.
  rewrite E1, E2, E3, F, V. simpl. auto.
Qed.

(** When the download can be started, it is the first command run. *)
Lemma install_miniconda_on_wsl_first (w : world P) :
  start_failure P wget_plain w = None ->
  exists rest,
    commands_run (events (install_miniconda_on_wsl P w)) = wget_plain :: rest.
Proof.
  intros Hs. destruct (check_call_started wget_plain w Hs) as (_ & _ & V).
  unfold install_miniconda_on_wsl.
  match goal with
  | |- context [try_except (bind ?m ?f) ?h ?k w] =>
      change m with (subprocess_check_call P wget_plain);
      destruct (try_except_events_prefix
                  (bind (subprocess_check_call P wget_plain) f) h k w)
        as [t1 ->];
      destruct (bind_events_prefix (subprocess_check_call P wget_plain) f w)
        as [t2 ->]
  end.
  rewrite V, !commands_run_app. cbn [commands_run app].
  eexists. reflexivity.
Qed.

(** The only exception that leaves [install_miniconda_on_wsl] is the
    [OSError] of a child that cannot be started. *)
Lemma install_miniconda_on_wsl_raises_only :
  raises_only is_OSError (install_miniconda_on_wsl P).
Proof.
  rewrite install_miniconda_on_wsl_unfold.
  apply (raises_only_try_except (either is_CalledProcessError is_OSError)).
  - apply checked_then_raises_only. apply returns_raises_only.
    apply returns_bind; [apply returns_run_shell|intros _; apply returns_print].
  - intros e. unfold either. destruct e; simpl; congruence.
  - intros e. apply returns_raises_only, returns_print.
Qed.

(** The runtime probe. *)
Lemma checkMinicondaWsl_started (w : world P) :
  start_failure P runtime_probe w = None ->
  checkMinicondaWsl P w
  = mkOutcome
      (Ok ((returncode (fst (os_run P runtime_probe w)) =? 0)%Z,
           "~/miniconda3"))
      (snd (os_run P runtime_probe w))
      [EvRun runtime_probe (fst (os_run P runtime_probe w))].
Proof.
  intros H. unfold checkMinicondaWsl, bind.
  change (Argv ["wsl"; "test"; "-d"; "~/miniconda3"]) with runtime_probe.
  rewrite (run_started P runtime_probe w H). reflexivity.
Qed.

Lemma checkMinicondaWsl_not_started (w : world P) (cls : string) :
  start_failure P runtime_probe w = Some cls ->
  checkMinicondaWsl P w = mkOutcome (Raise (OSError cls)) w [].
Proof.
  intros H. unfold checkMinicondaWsl, bind.
  change (Argv ["wsl"; "test"; "-d"; "~/miniconda3"]) with runtime_probe.
  rewrite (run_not_started P runtime_probe w cls H). reflexivity.
Qed.

(** The runtime step: nothing is done when the probe cannot be started;
    nothing more when it exits with 0; the installer follows otherwise. *)
Lemma ensureRuntime_not_started (w : world P) (cls : string) :
  start_failure P runtime_probe w = Some cls ->
  result (ensureRuntime P w) = Raise (OSError cls)
  /\ final (ensureRuntime P w) = w
  /\ events (ensureRuntime P w) = [].
Proof.
  intros H. pose proof (checkMinicondaWsl_not_started w cls H) as Hc.
  unfold ensureRuntime. bind_known Hc. auto.
Qed.

Lemma ensureRuntime_present (w : world P) :
  start_failure P runtime_probe w = None ->
  returncode (fst (os_run P runtime_probe w)) = 0%Z ->
  result (ensureRuntime P w) = Ok "~/miniconda3"
  /\ final (ensureRuntime P w) = snd (os_run P runtime_probe w)
  /\ events (ensureRuntime P w)
     = [EvRun runtime_probe (fst (os_run P runtime_probe w))].
Proof.
  intros H Hrc. pose proof (checkMinicondaWsl_started w H) as Hc.
  rewrite Hrc in Hc at 1. cbn [Z.eqb] in Hc.
  unfold ensureRuntime. bind_known Hc. cbn [fst snd negb].
  bind_ok_step. cbn [ret result final events app]. auto.
Qed.

Lemma ensureRuntime_absent (w : world P) :
  start_failure P runtime_probe w = None ->
  (returncode (fst (os_run P runtime_probe w)) <> 0)%Z ->
  let t := install_miniconda_on_wsl P (snd (os_run P runtime_probe w)) in
  result (ensureRuntime P w)
  = match result t with
    | Ok _ => Ok "~/miniconda3"
    | Raise e => Raise e
    end
  /\ final (ensureRuntime P w) = final t
  /\ events (ensureRuntime P w)
     = EvRun runtime_probe (fst (os_run P runtime_probe w)) :: events t.
Proof.
  intros H Hrc. pose proof (checkMinicondaWsl_started w H) as Hc.
  apply Z.eqb_neq in Hrc. rewrite Hrc in Hc.
  unfold ensureRuntime. bind_known Hc. cbn [fst snd negb app]. cbv zeta.
  destruct (result (install_miniconda_on_wsl P
                      (snd (os_run P runtime_probe w)))) as [[]|e] eqn:E.
  - bind_ok_with E. cbn [ret result final events]. rewrite app_nil_r. auto.
  - match goal with
    | |- context [bind ?m ?f ?w'] =>
        destruct (bind_raise m f w' e E) as (-> & -> & ->)
    end.
    auto.
Qed.

Lemma ensureRuntime_raises_only : raises_only is_OSError (ensureRuntime P).
Proof.
  unfold ensureRuntime. apply raises_only_bind.
  - unfold checkMinicondaWsl. apply raises_only_bind.
    + apply run_raises_only.
    + intros r. apply returns_raises_only, returns_ret.
  - intros r. apply raises_only_bind.
    + destruct (negb (fst r)).
      * apply install_miniconda_on_wsl_raises_only.
      * apply returns_raises_only, returns_ret.
    + intros _. apply returns_raises_only, returns_ret.
Qed.

End Installer.

(** On a host where every child can be started, exit codes alone decide
    what happens. *)
Section ReliableHost.
Variable P : Platform.
Hypothesis Hstart : always_starts P.

Lemma starts (cmd : Command) (w : world P) : start_failure P cmd w = None.
Proof. destruct cmd; [apply Hstart|reflexivity]. Qed.

Lemma returns_run (cmd : Command) : returns (subprocess_run P cmd).
Proof.
  intros w. rewrite (run_started P cmd w (starts cmd w)). now eexists.
Qed.

Lemma check_call_raises_exit (cmd : Command) :
  raises_only is_CalledProcessError (subprocess_check_call P cmd).
Proof.
  intros w e. rewrite (check_call_result P cmd w (starts cmd w)).
  cbv zeta. destruct (_ =? 0)%Z; [discriminate|]. now intros [= <-].
Qed.

Lemma install_miniconda_on_wsl_returns (w : world P) :
  result (install_miniconda_on_wsl P w) = Ok tt.
Proof.
  assert (H : returns (install_miniconda_on_wsl P)).
  { unfold install_miniconda_on_wsl. apply try_except_returns.
    - repeat (apply raises_only_bind;
              [apply check_call_raises_exit|intros _]).
      apply returns_raises_only.
      apply returns_bind;
        [apply returns_run_shell|intros _; apply returns_print].
    - intros e. apply returns_print. }
  destruct (H w) as [[] E]. exact E.
Qed.

Lemma ensureRuntime_returns (w : world P) :
  result (ensureRuntime P w) = Ok "~/miniconda3".
Proof.
  destruct (Z.eq_dec (returncode (fst (os_run P runtime_probe w))) 0)
    as [Hrc|Hrc].
  - apply (ensureRuntime_present P w (starts _ w) Hrc).
  - destruct (ensureRuntime_absent P w (starts _ w) Hrc) as (R & _).
    cbv zeta in R. now rewrite install_miniconda_on_wsl_returns in R.
Qed.

End ReliableHost.

(** One step of a sequence that begins with a [subprocess.run] on a host
    where every child starts. *)
Ltac run_step P Hst :=
  cbv beta;
  match goal with
  | |- context [bind (subprocess_run P ?c) ?f ?w] =>
      let H := fresh "H" in
      pose proof (run_started P c w (starts P Hst c w)) as H;
      bind_known H; clear H
  end.

(** [install_conda] on a Windows host where every child starts: the
    download comes first, and the answer is [True] whatever the exit
    codes. *)
Lemma install_conda_spec (P : Platform) (default_install_path : string)
  (w : world P) :
  always_starts P ->
  platform_system P = "Windows" ->
  result (install_conda P default_install_path w) = Ok true
  /\ exists rest,
       commands_run (events (install_conda P default_install_path w))
       = wget_resumable P default_install_path :: rest.
Proof.
  intros Hst Hsys. unfold install_conda. cbv zeta. rewrite Hsys.
  change ("Windows" =? "Windows") with true. cbv iota.
  bind_ok_step. run_step P Hst. run_step P Hst.
  match goal with
  | |- context [bind (try_except ?m ?h ?k) ?f ?w2] =>
      assert (Hb : result (m w2) = Ok None);
      [ bind_ok_step; run_step P Hst; run_step P Hst; run_step P Hst;
        bind_ok_step; reflexivity
      | pose proof (try_except_ok m h k w2 None Hb) as T;
        assert (Ht : result (try_except m h k w2) = Ok None)
          by (rewrite T; exact Hb);
        bind_ok_with Ht ]
  end.
  cbn [ret result events app commands_run]. split; [reflexivity|].
  eexists. reflexivity.
Qed.

(* ===================================================================== *)
(** * Runtime installation and command execution: properties             *)
(* ===================================================================== *)







(* ===================================================================== *)
(** * Worker dispatch: lemmas and properties                              *)
(* ===================================================================== *)

Lemma rpyc_failure_app (t u : list Event) (e : exn) :
  rpyc_failure t e \/ rpyc_failure u e -> rpyc_failure (t ++ u) e.
Proof.
  unfold rpyc_failure. rewrite !in_app_iff. tauto.
Qed.

Section Composition.
Context {W A B : Type}.

Lemma childless_bind (m : M W A) (f : A -> M W B) :
  childless m -> (forall a, childless (f a)) -> childless (bind m f).
Proof.
  intros Hm Hf w. destruct (Hm w) as (C & L & T).
  destruct (result (m w)) as [a|e] eqn:E.
  - destruct (bind_ok m f w a E) as (_ & _ & ->).
    destruct (Hf a (final (m w))) as (C' & L' & T').
    rewrite commands_run_app, launched_app, terminated_app.
    now rewrite C, L, T, C', L', T'.
  - destruct (bind_raise m f w e E) as (_ & _ & ->). auto.
Qed.

Lemma blames_rpyc_bind (u : bool) (m : M W A) (f : A -> M W B) :
  blames_rpyc u m -> (forall a, blames_rpyc u (f a)) ->
  blames_rpyc u (bind m f).
Proof.
  intros Hm Hf w e. destruct (result (m w)) as [a|e'] eqn:E.
  - destruct (bind_ok m f w a E) as (-> & _ & ->). intros H.
    destruct (Hf a _ _ H) as [H'|H']; [now left|right].
    apply rpyc_failure_app. now right.
  - destruct (bind_raise m f w e' E) as (-> & _ & ->). intros [= <-].
    now apply Hm.
Qed.

Lemma returns_blames_rpyc (u : bool) (m : M W A) :
  returns m -> blames_rpyc u m.
Proof.
  intros Hm w e He. destruct (Hm w) as [a Ha]. congruence.
Qed.

End Composition.

Section Dispatch.
Variable P : Platform.
Variables (default_install_path : string) (args : Args) (name : string).
Variable w : world P.

(** [call] is the activation command, the launch of the worker, two
    seconds of sleep, and then the rpyc steps. *)
Lemma call_decompose :
  let t := call_after_launch P args
             (world_at_connect P default_install_path name w) in
  result (call P default_install_path args name w) = result t
  /\ events (call P default_install_path args name w)
     = EvRun (Shell (activate_command P default_install_path name))
             (fst (os_run P
                     (Shell (activate_command P default_install_path name))
                     w))
       :: EvPopen (Shell (server_command P default_install_path name))
       :: EvSleep 2 :: events t.
Proof.
  unfold call. do 3 bind_ok_step. cbv beta. split; reflexivity.
Qed.

Lemma childless_connect : childless (rpyc_connect_call P "localhost" 18817).
Proof.
  intros w'. unfold rpyc_connect_call. destruct (rpyc_bound P); simpl; auto.
Qed.

Lemma childless_stop : childless (conn_root_stop P).
Proof.
  intros w'. unfold conn_root_stop.
  destruct (fst (rpyc_stop P w')); simpl; auto.
Qed.

Lemma childless_after_launch : childless (call_after_launch P args).
Proof.
  unfold call_after_launch.
  apply childless_bind; [apply childless_connect|intros _].
  apply childless_bind; [intros w'; simpl; auto|intros _].
  apply childless_bind; [intros w'; simpl; auto|intros _].
  apply childless_bind; [apply childless_stop|intros s].
  apply childless_bind; [|intros _ w'; simpl; auto].
  destruct (s =? "DISCONNECTING"); intros w'; simpl; auto.
Qed.

Lemma blames_connect :
  blames_rpyc (negb (rpyc_bound P)) (rpyc_connect_call P "localhost" 18817).
Proof.
  intros w' e. unfold rpyc_connect_call, rpyc_failure.
  destruct (rpyc_bound P); simpl.
  - destruct (fst (rpyc_connect P _ _ w')); [|discriminate].
    intros [= <-]. right. simpl. tauto.
  - intros [= <-]. now left.
Qed.

Lemma blames_running :
  blames_rpyc (negb (rpyc_bound P)) (conn_root_running P args).
Proof.
  intros w' e. unfold conn_root_running, rpyc_failure. simpl.
  destruct (fst (rpyc_running P args w')); [|discriminate].
  intros [= <-]. right. simpl. tauto.
Qed.

Lemma blames_stop : blames_rpyc (negb (rpyc_bound P)) (conn_root_stop P).
Proof.
  intros w' e. unfold conn_root_stop, rpyc_failure.
  destruct (fst (rpyc_stop P w')); simpl; [|discriminate].
  intros [= <-]. right. simpl. tauto.
Qed.

Lemma blames_after_launch :
  blames_rpyc (negb (rpyc_bound P)) (call_after_launch P args).
Proof.
  unfold call_after_launch.
  apply blames_rpyc_bind; [apply blames_connect|intros _].
  apply blames_rpyc_bind;
    [apply returns_blames_rpyc; intros w'; now exists tt|intros _].
  apply blames_rpyc_bind; [apply blames_running|intros _].
  apply blames_rpyc_bind; [apply blames_stop|intros s].
  apply returns_blames_rpyc.
  apply returns_bind; [|intros _; apply returns_print].
  destruct (s =? "DISCONNECTING"); intros w'; now exists tt.
Qed.

(** [call] starts with the activation command, the launch of the worker
    and the two seconds of sleep; it launches exactly one child, stops
    none, and whatever it raises was raised at the rpyc steps. *)
Lemma call_facts :
  let o := call P default_install_path args name w in
  (exists r rest,
     events o
     = EvRun (Shell (activate_command P default_install_path name)) r
       :: EvPopen (Shell (server_command P default_install_path name))
       :: EvSleep 2 :: rest)
  /\ launched (events o)
     = [Shell (server_command P default_install_path name)]
  /\ terminated (events o) = []
  /\ (forall e, result o = Raise e ->
        (rpyc_bound P = false /\ e = NameError "rpyc")
        \/ rpyc_failure (events o) e).
Proof.
  destruct call_decompose as (R & V). cbv zeta. rewrite R, V.
  set (t := call_after_launch P args _).
  destruct (childless_after_launch
              (world_at_connect P default_install_path name w))
    as (_ & L & T).
  fold t in L, T.
  split; [eauto|]. split; [simpl; now rewrite L|].
  split; [simpl; exact T|].
  intros e He. destruct (blames_after_launch _ _ He) as [[Hb ->]|Hf].
  - left. split; [|reflexivity]. now destruct (rpyc_bound P).
  - right. fold t in Hf. unfold rpyc_failure in *. simpl. tauto.
Qed.

(** When line 228 fails, the exception leaves [call] as it is; the trace
    ends there, with the worker launched and no connection opened. *)
Lemma call_connect_fails (e : exn) :
  connect_fails P default_install_path name w e ->
  let o := call P default_install_path args name w in
  result o = Raise e
  /\ open_connections 0 (events o) = 0
  /\ commands_run (events o)
     = [Shell (activate_command P default_install_path name)].
Proof.
  intros H. destruct call_decompose as (R & V). cbv zeta. rewrite R, V.
  unfold connect_fails in H.
  remember (world_at_connect P default_install_path name w) as w3 eqn:Ew3
    in *.
  assert (Hc : result (rpyc_connect_call P "localhost" 18817 w3) = Raise e
               /\ open_connections 0
                    (events (rpyc_connect_call P "localhost" 18817 w3)) = 0
               /\ commands_run
                    (events (rpyc_connect_call P "localhost" 18817 w3)) = []).
  { unfold rpyc_connect_call.
    destruct H as [[Hb ->]|[Hb He]]; rewrite Hb; simpl; [auto|].
    rewrite He. auto. }
  destruct Hc as (Hr & Ho & Hn).
  unfold call_after_launch.
  match goal with
  | |- context [bind ?m ?f w3] =>
      destruct (bind_raise m f w3 e Hr) as (-> & _ & ->)
  end.
  simpl. now rewrite Ho, Hn.
Qed.

End Dispatch.

(** Where every child starts and every output decodes, the environment
    step returns. *)
Lemma ensureEnvironment_returns (P : Platform) (name : string)
  (w : world P) :
  always_starts P -> always_decodes P ->
  result (ensureEnvironment P name w) = Ok tt.
Proof.
  intros Hst Hdec. pose proof (starts P Hst envs_listing w) as Hs.
  destruct (env_listed P name (fst (os_run P envs_listing w))) eqn:E.
  - apply (ensureEnvironment_present P name w Hs E).
  - destruct (ensureEnvironment_absent P name w Hs E) as (R & _).
    cbv zeta in R. rewrite R.
    apply (createCondaEnv_commands P name _ (starts P Hst _ _) (Hdec _ _)).
Qed.

(** [setup] dispatches whatever provisioning did: once the runtime step
    and the environment step have returned, the dispatch command is run. *)
Lemma setup_dispatches (P : Platform) (default_install_path : string)
  (args : Args) (w : world P) (a0 a1 a2 a3 a4 a5 a6 a7 a8 : string)
  (more : list string) (prefix : string) :
  sys_argv P = a0 :: a1 :: a2 :: a3 :: a4 :: a5 :: a6 :: a7 :: a8 :: more ->
  result (ensureRuntime P w) = Ok prefix ->
  result (ensureEnvironment P "aliIOSCondaCli" (final (ensureRuntime P w)))
  = Ok tt ->
  let o := setup P default_install_path args w in
  let o1 := ensureRuntime P w in
  let o2 := ensureEnvironment P "aliIOSCondaCli" (final o1) in
  result o = Ok tt
  /\ commands_run (events o)
     = (commands_run (events o1) ++ commands_run (events o2)
        ++ [dispatch_command P a3 a4 a5 a6 a7 a8])%list.
Proof.
  intros Hargv H1 H2 o o1 o2. subst o. unfold setup.
  match goal with
  | |- context [bind (ensureRuntime P) ?f w] =>
      destruct (bind_ok (ensureRuntime P) f w _ H1) as (E1 & _ & E3)
  end.
  rewrite E1, E3. clear E1 E3. fold o1.
  match goal with
  | |- context [bind (ensureEnvironment P ?n) ?f (final o1)] =>
      destruct (bind_ok (ensureEnvironment P n) f (final o1) _ H2)
        as (E1 & _ & E3)
  end.
  rewrite E1, E3. clear E1 E3. fold o2.
  unfold argv_at. rewrite Hargv.
  do 8 bind_ok_step. cbv beta.
  match goal with
  | |- context [(if ?b then ?x else ?y) ?w'] =>
      assert (HF : returns (if b then x else y)
                   /\ childless (if b then x else y))
        by (destruct b; split;
            repeat first [ apply returns_print
                         | apply returns_bind; [|intros _] ];
            repeat (apply childless_bind; [|intros _]);
            intros ?; simpl; auto);
      destruct (proj1 HF w') as [[] HR];
      destruct (proj2 HF w') as (HC & _ & _);
      rewrite HR
  end.
  split; [reflexivity|].
  rewrite !commands_run_app, HC.
  cbn [events commands_run ret print emit subprocess_run start_failure app
       nth_error].
  reflexivity.
Qed.

Lemma argv_at_raises_only (P : Platform) (i : nat) :
  raises_only is_host_or_index_error (argv_at P i).
Proof.
  unfold argv_at. destruct (nth_error (sys_argv P) i).
  - apply returns_raises_only, returns_ret.
  - intros w e [= <-]. reflexivity.
Qed.

(** Whatever leaves [setup] is the [OSError] of a child that cannot be
    started, the [UnicodeDecodeError] of line 104, or the [IndexError] of
    a missing job argument. *)
Lemma setup_raises_only (P : Platform) (default_install_path : string)
  (args : Args) :
  raises_only is_host_or_index_error (setup P default_install_path args).
Proof.
  unfold setup. cbv zeta.
  apply raises_only_bind;
    [apply (raises_only_weaken is_OSError);
     [now intros []|apply ensureRuntime_raises_only]|intros _].
  apply raises_only_bind;
    [apply (raises_only_weaken is_host_error);
     [now intros []|apply ensureEnvironment_raises_only]|intros _].
  do 6 (apply raises_only_bind; [apply argv_at_raises_only|intros ?]).
  apply returns_raises_only.
  apply returns_bind; [apply returns_print|intros _].
  apply returns_bind; [apply returns_run_shell|intros r].
  destruct (negb _);
    repeat first [ apply returns_print | apply returns_bind; [|intros _] ].
Qed.







(* ===================================================================== *)
(** * Environment creation: property                                      *)
(* ===================================================================== *)

(** C2: the closing report departs from the creation outcome. On a host where the base
    creation succeeds (and is reported as such), every install command is
    run, and only the last one, scipy's, fails (and is reported as failed),
    the closing report of [createCondaEnv] is a failure to create the
    environment: it follows the exit code of the last install command, not
    that of the creation. *)
Theorem createCondaEnv_final_report_follows_last_install :
  let o := createCondaEnv scipy_fails_host env_name [] in
  result o = Ok tt
  /\ nth_error (events o) 1
     = Some (EvRun (Argv (create_argv env_name)) succeeded)
  /\ nth_error (printed (events o)) 1
     = Some [VStr "Environment created successfully."]
  /\ commands_run (events o)
     = Argv (create_argv env_name) :: Shell "~/miniconda3/bin/conda list pip"
       :: map Shell (install_commands env_name)
  /\ nth_error (printed (events o)) 18
     = Some [VStr ("Failed to execute: " ++ scipy_install)]
  /\ last (printed (events o)) []
     = [VStr "Failed to create environment:"; VStr scipy_error].
Proof. vm_compute. repeat split; reflexivity. Qed.

(* ===================================================================== *)
(** * Path translation: further properties                                *)
(* ===================================================================== *)

Lemma lower_char_keeps (c : ascii) :
  Ascii.eqb (lower_char c) colon = Ascii.eqb c colon
  /\ Ascii.eqb (lower_char c) backslash = Ascii.eqb c backslash.
Proof. each_char c. Qed.

Lemma contains_append (c : ascii) (a b : string) :
  contains c (a ++ b) = contains c a || contains c b.
Proof.
  induction a as [|d a IH]; [reflexivity|].
  simpl. now rewrite IH, orb_assoc.
Qed.

Lemma contains_backslash_lower (s : string) :
  contains backslash (lower s) = contains backslash s.
Proof.
  induction s as [|c s IH]; [reflexivity|].
  simpl. now rewrite IH, (proj2 (lower_char_keeps c)).
Qed.

Lemma replace_fixed (s : string) :
  contains backslash s = false -> replace backslash slash s = s.
Proof.
  induction s as [|c s IH]; [reflexivity|].
  simpl. intros H. apply orb_false_iff in H as [Hc Hs].
  now rewrite Hc, (IH Hs).
Qed.

Lemma count_char_append (c : ascii) (a b : string) :
  count_char c (a ++ b) = count_char c a + count_char c b.
Proof.
  induction a as [|d a IH]; [reflexivity|].
  simpl. rewrite IH. lia.
Qed.

Lemma count_char_absent (c : ascii) (s : string) :
  contains c s = false -> count_char c s = 0.
Proof.
  induction s as [|d s IH]; [reflexivity|].
  simpl. intros H. apply orb_false_iff in H as [Hd Hs].
  now rewrite Hd, (IH Hs).
Qed.

Lemma count_char_present (c : ascii) (s : string) :
  contains c s = true -> 0 < count_char c s.
Proof.
  induction s as [|d s IH]; [discriminate|].
  simpl. destruct (Ascii.eqb d c); simpl; [lia|exact IH].
Qed.

Lemma count_colon_lower (s : string) :
  count_char colon (lower s) = count_char colon s.
Proof.
  induction s as [|c s IH]; [reflexivity|].
  simpl. now rewrite IH, (proj1 (lower_char_keeps c)).
Qed.

Lemma count_colon_replace (s : string) :
  count_char colon (replace backslash slash s) = count_char colon s.
Proof.
  induction s as [|c s IH]; [reflexivity|].
  simpl. rewrite IH. f_equal.
  destruct (Ascii.eqb_spec c backslash) as [->|]; reflexivity.
Qed.

Lemma space_is_not_colon (c : ascii) :
  isspace c = true -> Ascii.eqb c colon = false.
Proof. each_char c. Qed.

Lemma count_colon_lstrip (s : string) :
  count_char colon (lstrip s) = count_char colon s.
Proof.
  induction s as [|c s IH]; [reflexivity|].
  simpl. destruct (isspace c) eqn:Hc; [|reflexivity].
  now rewrite IH, (space_is_not_colon c Hc).
Qed.

Lemma count_colon_rstrip (s : string) :
  count_char colon (rstrip s) = count_char colon s.
Proof.
  induction s as [|c s IH]; [reflexivity|].
  rewrite rstrip_step. simpl count_char at 2. rewrite <- IH.
  destruct (rstrip s) as [|c' r]; [|reflexivity].
  destruct (isspace c) eqn:Hc; simpl.
  - now rewrite (space_is_not_colon c Hc).
  - lia.
Qed.

Lemma count_colon_normalized (s : string) :
  count_char colon (normalized s) = count_char colon s.
Proof.
  unfold normalized, strip.
  now rewrite count_colon_replace, count_colon_rstrip, count_colon_lstrip.
Qed.

Lemma w2l_colon_count (s : string) :
  count_char colon (windows_to_linux_path s) = count_char colon s - 1.
Proof.
  rewrite <- (count_colon_normalized s).
  destruct (contains colon (normalized s)) eqn:H.
  - destruct (contains_first colon _ H) as (pre & post & E & Hpre).
    rewrite (w2l_at_first_colon s pre post E Hpre), E.
    rewrite !count_char_append, count_colon_lower.
    rewrite (count_char_absent _ _ Hpre). simpl. lia.
  - rewrite (w2l_without_colon s H), (count_char_absent _ _ H). reflexivity.
Qed.

(** X1: every translation consumes exactly one colon of its input, the
    first one, when there is one, and adds none; so the translation of a
    path with two colons or more still has a colon, and translating it
    again rewrites it again. *)
Theorem windows_to_linux_path_consumes_one_colon (s : string) :
  count_char colon (windows_to_linux_path s) = count_char colon s - 1
  /\ (2 <= count_char colon s ->
      contains colon (windows_to_linux_path s) = true
      /\ windows_to_linux_path (windows_to_linux_path s)
         <> windows_to_linux_path s).
Proof.
  split; [apply w2l_colon_count|]. intros H2.
  pose proof (w2l_colon_count s) as H1.
  split.
  - destruct (contains colon (windows_to_linux_path s)) eqn:Hc;
      [reflexivity|].
    apply count_char_absent in Hc. lia.
  - intros Hfix. pose proof (w2l_colon_count (windows_to_linux_path s)) as H.
    rewrite Hfix in H. lia.
Qed.

Lemma windows_to_linux_path_consumes_one_colon_witness :
  count_char colon "C:\data\scan:1.vtk" = 2
  /\ windows_to_linux_path "C:\data\scan:1.vtk" = "/mnt/c/data/scan:1.vtk"
  /\ windows_to_linux_path (windows_to_linux_path "C:\data\scan:1.vtk")
     <> windows_to_linux_path "C:\data\scan:1.vtk".
Proof.
  split; [reflexivity|]. split; [reflexivity|].
  apply (proj2 (windows_to_linux_path_consumes_one_colon
                  "C:\data\scan:1.vtk")).
  vm_compute. lia.
Defined.

(** X2: the translation of any string is free of backslashes. *)
Theorem windows_to_linux_path_no_backslash (s : string) :
  contains backslash (windows_to_linux_path s) = false.
Proof.
  pose proof (replace_no_backslash (strip s)) as Hn. fold (normalized s) in Hn.
  destruct (contains colon (normalized s)) eqn:H.
  - destruct (contains_first colon _ H) as (pre & post & E & Hpre).
    rewrite (w2l_at_first_colon s pre post E Hpre).
    rewrite E, contains_append in Hn. apply orb_false_iff in Hn as [Hp Hq].
    simpl in Hq. rewrite !contains_append, contains_backslash_lower, Hp.
    simpl. exact Hq.
  - now rewrite (w2l_without_colon s H).
Qed.

(** X3: the strings the translation leaves unchanged are exactly those
    without surrounding whitespace, without backslash and without colon. *)
Theorem windows_to_linux_path_fixed_points (s : string) :
  windows_to_linux_path s = s
  <-> strip s = s /\ contains backslash s = false /\ contains colon s = false.
Proof.
  split.
  - intros Hfix.
    destruct (contains colon (normalized s)) eqn:H.
    + exfalso.
      pose proof (w2l_colon_count s) as Hc.
      rewrite Hfix in Hc.
      pose proof (count_char_present _ _ H) as Hp.
      rewrite count_colon_normalized in Hp. lia.
    + pose proof (w2l_without_colon s H) as E. rewrite Hfix in E.
      repeat split.
      * rewrite E at 1. rewrite strip_normalized. now symmetry.
      * rewrite E. apply replace_no_backslash.
      * now rewrite E.
  - intros (Hs & Hb & Hc).
    assert (E : normalized s = s)
      by (unfold normalized; rewrite Hs; now apply replace_fixed).
    rewrite w2l_without_colon; rewrite E; [reflexivity|assumption].
Qed.

Lemma windows_to_linux_path_fixed_points_witness :
  (strip "/mnt/c/data/scan.vtk" = "/mnt/c/data/scan.vtk"
   /\ contains backslash "/mnt/c/data/scan.vtk" = false
   /\ contains colon "/mnt/c/data/scan.vtk" = false)
  /\ windows_to_linux_path "/mnt/c/data/scan.vtk" = "/mnt/c/data/scan.vtk".
Proof.
  assert (H : strip "/mnt/c/data/scan.vtk" = "/mnt/c/data/scan.vtk"
              /\ contains backslash "/mnt/c/data/scan.vtk" = false
              /\ contains colon "/mnt/c/data/scan.vtk" = false)
    by (repeat split; reflexivity).
  split; [exact H|].
  exact (proj2 (windows_to_linux_path_fixed_points "/mnt/c/data/scan.vtk") H).
Defined.

(* ===================================================================== *)
(** * Probe and creation: further properties                              *)
(* ===================================================================== *)

Lemma listing_is_no_install (name cmd : string) :
  In cmd (install_commands name) -> cmd <> "~/miniconda3/bin/conda list pip".
Proof.
  unfold install_commands, wsl_bash_c. simpl.
  intros H. repeat (destruct H as [<-|H]; [discriminate|]). destruct H.
Qed.

Lemma creation_report_prints (r : CompletedProcess) (e : Event) :
  In e (creation_report r) -> exists a, e = EvPrint a.
Proof.
  unfold creation_report. destruct (negb _); simpl; intros H;
    repeat (destruct H as [<-|H]; [eexists; reflexivity|]); destruct H.
Qed.









(* ===================================================================== *)
(** * Runtime installation: further properties                            *)
(* ===================================================================== *)



(** X9: let [c] be a checked command of [install_miniconda_on_wsl] and
    [pre] the checked commands before it, all of which start and exit with
    0. If [c], started in the world they leave, exits with a non-zero
    code, it is the last command run: no later command and not the install
    of rpyc; the one message printed is the error carrying [c] and that
    exit code, and the function returns normally. If [c] cannot be
    started, its [OSError] leaves the function: the handler, which catches
    [CalledProcessError] only, prints nothing. *)
Theorem install_miniconda_on_wsl_stops_at_first_failure (P : Platform)
  (w : world P) (pre post : list Command) (c : Command) :
  checked_commands = (pre ++ c :: post)%list ->
  checks_pass P pre w = true ->
  let o := install_miniconda_on_wsl P w in
  let w' := world_after P pre w in
  (start_failure P c w' = None ->
   (returncode (fst (os_run P c w')) <> 0)%Z ->
   result o = Ok tt
   /\ commands_run (events o) = (pre ++ [c])%list
   /\ printed (events o)
      = [miniconda_failure
           (CalledProcessError (returncode (fst (os_run P c w'))) c)])
  /\ (forall cls, start_failure P c w' = Some cls ->
        result o = Raise (OSError cls)
        /\ commands_run (events o) = pre
        /\ printed (events o) = []).
Proof.
  intros E Hp. cbv zeta. split.
  - intros Hs Hrc.
    apply (install_miniconda_on_wsl_exit P pre post c w E Hp Hs Hrc).
  - intros cls Hs.
    apply (install_miniconda_on_wsl_blocked P pre post c w cls E Hp Hs).
Qed.

Lemma install_miniconda_on_wsl_stops_at_first_failure_witness :
  let chmod := Argv ["wsl"; "--"; "chmod"; "+x"; installer] in
  (let o := install_miniconda_on_wsl chmod_fails_host [] in
   returncode (fst (os_run chmod_fails_host chmod [wget_plain])) = 1%Z
   /\ result o = Ok tt
   /\ commands_run (events o) = [wget_plain; chmod]
   /\ printed (events o)
      = [miniconda_failure (CalledProcessError 1 chmod)])
  /\ (let o := install_miniconda_on_wsl chmod_blocked_host [] in
      start_failure chmod_blocked_host chmod [wget_plain]
      = Some "PermissionError"
      /\ result o = Raise (OSError "PermissionError")
      /\ commands_run (events o) = [wget_plain]
      /\ printed (events o) = []).
Proof.
  intros chmod. split.
  - intros o. split; [reflexivity|].
    apply (proj1 (install_miniconda_on_wsl_stops_at_first_failure
                    chmod_fails_host [] [wget_plain]
                    (tl (tl checked_commands)) chmod eq_refl eq_refl)).
    + reflexivity.
    + vm_compute. discriminate.
  - intros o. split; [reflexivity|].
    apply (proj2 (install_miniconda_on_wsl_stops_at_first_failure
                    chmod_blocked_host [] [wget_plain]
                    (tl (tl checked_commands)) chmod eq_refl eq_refl)).
    reflexivity.
Defined.

(** X10: the runtime step of [setup] installs exactly when its probe runs
    and exits with a non-zero code. If the probe cannot be started, the
    step raises that [OSError] and nothing has run. If the probe exits with
    0, it is the only command run, nothing is printed or downloaded, and
    the step returns. Otherwise the installer follows: its download is the
    next command when it can be started, and when it cannot, its [OSError]
    leaves the step with the probe the only command run. Whenever the step
    returns, it returns the fixed prefix. *)
Theorem ensureRuntime_installs_iff_probe_fails (P : Platform) (w : world P) :
  let o := ensureRuntime P w in
  let r := fst (os_run P runtime_probe w) in
  let w1 := snd (os_run P runtime_probe w) in
  (forall cls, start_failure P runtime_probe w = Some cls ->
     result o = Raise (OSError cls) /\ events o = [])
  /\ (start_failure P runtime_probe w = None -> returncode r = 0%Z ->
      result o = Ok "~/miniconda3"
      /\ commands_run (events o) = [runtime_probe]
      /\ printed (events o) = [])
  /\ (start_failure P runtime_probe w = None -> returncode r <> 0%Z ->
      (start_failure P wget_plain w1 = None ->
       exists rest,
         commands_run (events o) = runtime_probe :: wget_plain :: rest)
      /\ (forall cls, start_failure P wget_plain w1 = Some cls ->
            result o = Raise (OSError cls)
            /\ commands_run (events o) = [runtime_probe]))
  /\ (forall p, result o = Ok p -> p = "~/miniconda3").
Proof.
  cbv zeta. split; [|split; [|split]].
  - intros cls Hs.
    destruct (ensureRuntime_not_started P w cls Hs) as (R & _ & V).
    split; assumption.
  - intros Hs Hrc.
    destruct (ensureRuntime_present P w Hs Hrc) as (R & _ & V).
    rewrite R, V. repeat split; reflexivity.
  - intros Hs Hrc.
    destruct (ensureRuntime_absent P w Hs Hrc) as (R & _ & V).
    cbv zeta in R, V. rewrite R, V. split.
    + intros Hw.
      destruct (install_miniconda_on_wsl_first P _ Hw) as [rest Hrest].
      exists rest. cbn [commands_run]. now rewrite Hrest.
    + intros cls Hw.
      destruct (install_miniconda_on_wsl_blocked P []
                  (tl checked_commands) wget_plain _ cls eq_refl eq_refl Hw)
        as (R' & C' & _).
      cbv zeta in R', C'. cbn [commands_run]. now rewrite R', C'.
  - intros p.
    destruct (start_failure P runtime_probe w) as [cls|] eqn:Hs.
    + rewrite (proj1 (ensureRuntime_not_started P w cls Hs)). discriminate.
    + destruct (Z.eq_dec (returncode (fst (os_run P runtime_probe w))) 0)
        as [Hrc|Hrc].
      * rewrite (proj1 (ensureRuntime_present P w Hs Hrc)). now intros [= <-].
      * rewrite (proj1 (ensureRuntime_absent P w Hs Hrc)). cbv zeta.
        destruct (result (install_miniconda_on_wsl P _));
          [now intros [= <-]|discriminate].
Qed.

Lemma ensureRuntime_installs_iff_probe_fails_witness :
  (returncode (fst (os_run fresh_host runtime_probe [])) = 0%Z
   /\ commands_run (events (ensureRuntime fresh_host [])) = [runtime_probe])
  /\ (returncode (fst (os_run offline_host runtime_probe [])) = 1%Z
      /\ exists rest,
           commands_run (events (ensureRuntime offline_host []))
           = runtime_probe :: wget_plain :: rest)
  /\ (start_failure no_wsl_host runtime_probe [] = Some "FileNotFoundError"
      /\ result (ensureRuntime no_wsl_host [])
         = Raise (OSError "FileNotFoundError")
      /\ events (ensureRuntime no_wsl_host []) = []).
Proof.
  split; [|split]; (split; [reflexivity|]).
  - apply (proj1 (proj2 (ensureRuntime_installs_iff_probe_fails
                           fresh_host [])));
      reflexivity.
  - apply (proj1 (proj1 (proj2 (proj2
                           (ensureRuntime_installs_iff_probe_fails
                              offline_host [])))
                    eq_refl ltac:(vm_compute; discriminate)));
      reflexivity.
  - apply (proj1 (ensureRuntime_installs_iff_probe_fails no_wsl_host [])).
    reflexivity.
Defined.

(** X11: on a system other than Windows [install_conda] raises
    [NotImplementedError], naming the system and the machine, before it
    runs or prints anything. *)
Theorem install_conda_unsupported_system (P : Platform)
  (default_install_path : string) (w : world P) :
  platform_system P <> "Windows" ->
  install_conda P default_install_path w
  = mkOutcome
      (Raise (NotImplementedError
                ("Unsupported system: " ++ platform_system P ++ " "
                 ++ platform_machine P)))
      w [].
Proof.
  intros H. apply String.eqb_neq in H.
  unfold install_conda. rewrite H. reflexivity.
Qed.

Lemma install_conda_unsupported_system_witness :
  platform_system linux_host <> "Windows"
  /\ install_conda linux_host "~/miniconda3" []
     = mkOutcome
         (Raise (NotImplementedError "Unsupported system: Linux x86_64"))
         [] [].
Proof.
  assert (H : platform_system linux_host <> "Windows") by discriminate.
  split; [exact H|].
  exact (install_conda_unsupported_system linux_host "~/miniconda3" [] H).
Defined.

(* ===================================================================== *)
(** * The command-line path: further properties                           *)
(* ===================================================================== *)

Lemma rpc_steps_app (t u : list Event) :
  rpc_steps (t ++ u) = rpc_steps t + rpc_steps u.
Proof.
  induction t as [|[] t IH]; simpl; try rewrite IH; reflexivity.
Qed.

Section LocalOnly.
Context {W A B : Type}.

Lemma local_only_bind (m : M W A) (f : A -> M W B) :
  local_only m -> (forall a, local_only (f a)) -> local_only (bind m f).
Proof.
  intros Hm Hf w. destruct (Hm w) as (L & R).
  destruct (result (m w)) as [a|e] eqn:E.
  - destruct (bind_ok m f w a E) as (_ & _ & ->).
    destruct (Hf a (final (m w))) as (L' & R').
    now rewrite launched_app, rpc_steps_app, L, R, L', R'.
  - destruct (bind_raise m f w e E) as (_ & _ & ->). auto.
Qed.

Lemma local_only_try_except (m : M W A) (h : exn -> bool)
  (k : exn -> M W A) :
  local_only m -> (forall e, local_only (k e)) ->
  local_only (try_except m h k).
Proof.
  intros Hm Hk w. destruct (Hm w) as (L & R). unfold try_except.
  destruct (result (m w)) as [a|e] eqn:E; [auto|].
  destruct (h e); [|auto]. simpl.
  destruct (Hk e (final (m w))) as (L' & R').
  now rewrite launched_app, rpc_steps_app, L, R, L', R'.
Qed.

End LocalOnly.

Lemma local_only_run (P : Platform) (c : Command) :
  local_only (subprocess_run P c).
Proof.
  intros w. unfold subprocess_run.
  destruct (start_failure P c w); split; reflexivity.
Qed.

Lemma local_only_run_strict (P : Platform) (c : Command) :
  local_only (subprocess_run_strict P c).
Proof.
  intros w. unfold subprocess_run_strict.
  destruct (start_failure P c w); [split; reflexivity|].
  destruct (os_decodes P c w); split; reflexivity.
Qed.

Ltac local_only_step P :=
  first [ apply local_only_run
        | apply local_only_run_strict
        | apply local_only_bind; [|intro]
        | apply local_only_try_except; [|intro]
        | match goal with
          | |- local_only (if ?b then _ else _) => destruct b
          | |- local_only (match ?o with Some _ => _ | None => _ end) =>
              destruct o
          end
        | (intros ?; split; reflexivity) ].

Section CommandLine.
Variable P : Platform.

Lemma local_only_check_call (c : Command) :
  local_only (subprocess_check_call P c).
Proof. unfold subprocess_check_call. repeat local_only_step P. Qed.

Lemma local_only_checked_then {A} (cmds : list Command)
  (k : M (world P) A) :
  local_only k -> local_only (checked_then P cmds k).
Proof.
  intros Hk. induction cmds as [|c rest IH]; [exact Hk|].
  simpl. apply local_only_bind; [apply local_only_check_call|intros _].
  exact IH.
Qed.

Lemma local_only_install_miniconda :
  local_only (install_miniconda_on_wsl P).
Proof.
  rewrite install_miniconda_on_wsl_unfold.
  apply local_only_try_except; [|intros e w; split; reflexivity].
  apply local_only_checked_then. repeat local_only_step P.
Qed.

Lemma local_only_checkEnv_loop (name : string) (env_lines : list string) :
  local_only (checkEnv_loop P name env_lines).
Proof.
  intros w. rewrite checkEnv_loop_spec. cbv zeta.
  destruct (existsb _ _); split; reflexivity.
Qed.

Lemma local_only_install_loop (commands : list string)
  (r : CompletedProcess) :
  local_only (install_loop P commands r).
Proof.
  revert r. induction commands as [|c rest IH]; intros r; simpl.
  - intros w; split; reflexivity.
  - apply local_only_bind; [intros w; split; reflexivity|intros _].
    apply local_only_bind; [apply local_only_run|intros r'].
    apply local_only_bind; [|intros _; apply IH].
    destruct (_ =? 0)%Z; intros w; split; reflexivity.
Qed.

Lemma local_only_ensureRuntime : local_only (ensureRuntime P).
Proof.
  unfold ensureRuntime, checkMinicondaWsl.
  apply local_only_bind; [repeat local_only_step P|intros r].
  apply local_only_bind; [|intros _ w; split; reflexivity].
  destruct (negb (fst r)); [apply local_only_install_miniconda|].
  intros w; split; reflexivity.
Qed.

Lemma local_only_createCondaEnv (name : string) :
  local_only (createCondaEnv P name).
Proof.
  unfold createCondaEnv.
  do 5 (apply local_only_bind; [repeat local_only_step P|intro]).
  apply local_only_bind; [apply local_only_install_loop|intro].
  repeat local_only_step P.
Qed.

Lemma local_only_ensureEnvironment (name : string) :
  local_only (ensureEnvironment P name).
Proof.
  unfold ensureEnvironment, checkEnvCondaWsl.
  apply local_only_bind.
  - apply local_only_bind; [repeat local_only_step P|intros r].
    apply local_only_bind; [|intros o; repeat local_only_step P].
    destruct (_ =? 0)%Z; [|intros w; split; reflexivity].
    apply local_only_bind; [intros w; split; reflexivity|intros _].
    apply local_only_checkEnv_loop.
  - intros b. destruct (negb b); [apply local_only_createCondaEnv|].
    intros w; split; reflexivity.
Qed.

Lemma local_only_argv_at (i : nat) : local_only (argv_at P i).
Proof. unfold argv_at. repeat local_only_step P. Qed.

Lemma local_only_setup (default_install_path : string) (args : Args) :
  local_only (setup P default_install_path args).
Proof.
  unfold setup.
  apply local_only_bind; [apply local_only_ensureRuntime|intros _].
  apply local_only_bind; [apply local_only_ensureEnvironment|intros _].
  do 6 (apply local_only_bind; [apply local_only_argv_at|intro]).
  repeat local_only_step P.
Qed.

Lemma local_only_main : local_only (main P).
Proof.
  unfold main. destruct (_ && _); [|intros w; split; reflexivity].
  do 7 (apply local_only_bind; [apply local_only_argv_at|intro]).
  apply local_only_setup.
Qed.

(** Reading [sys.argv] inside a sequence. *)
Lemma bind_argv_some {B} (i : nat) (a : string)
  (f : string -> M (world P) B) (w : world P) :
  nth_error (sys_argv P) i = Some a ->
  result (bind (argv_at P i) f w) = result (f a w)
  /\ final (bind (argv_at P i) f w) = final (f a w)
  /\ events (bind (argv_at P i) f w) = events (f a w).
Proof.
  intros H. unfold bind, argv_at. rewrite H. simpl. auto.
Qed.

Lemma bind_argv_none {B} (i : nat) (f : string -> M (world P) B)
  (w : world P) :
  nth_error (sys_argv P) i = None ->
  result (bind (argv_at P i) f w) = Raise IndexError
  /\ final (bind (argv_at P i) f w) = w
  /\ events (bind (argv_at P i) f w) = [].
Proof.
  intros H. unfold bind, argv_at. rewrite H. simpl. auto.
Qed.

End CommandLine.

Ltac argv_step P :=
  cbv beta;
  match goal with
  | |- context [bind (argv_at P ?i) ?f ?w'] =>
      let a := fresh "a" in
      let E := fresh "E" in
      let R := fresh "R" in
      let F := fresh "F" in
      let V := fresh "V" in
      destruct (nth_error (sys_argv P) i) as [a|] eqn:E;
      [ destruct (bind_argv_some P i a f w' E) as (R & F & V)
      | destruct (bind_argv_none P i f w' E) as (R & F & V) ];
      rewrite ?R, ?F, ?V; clear R F V
  end.

(** With fewer than the six job arguments, [setup] raises [IndexError]
    once its two steps have returned, and has done nothing else. *)
Lemma setup_short_argv (P : Platform) (default_install_path : string)
  (args : Args) (w : world P) (prefix : string) :
  length (sys_argv P) < 9 ->
  result (ensureRuntime P w) = Ok prefix ->
  result (ensureEnvironment P "aliIOSCondaCli" (final (ensureRuntime P w)))
  = Ok tt ->
  let o := setup P default_install_path args w in
  let o1 := ensureRuntime P w in
  let o2 := ensureEnvironment P "aliIOSCondaCli" (final o1) in
  result o = Raise IndexError
  /\ final o = final o2
  /\ events o = (events o1 ++ events o2)%list.
Proof.
  intros Hlen H1 H2 o o1 o2. subst o. unfold setup.
  match goal with
  | |- context [bind (ensureRuntime P) ?f w] =>
      destruct (bind_ok (ensureRuntime P) f w _ H1) as (E1 & E2 & E3)
  end.
  rewrite E1, E2, E3. clear E1 E2 E3. fold o1.
  match goal with
  | |- context [bind (ensureEnvironment P ?n) ?f (final o1)] =>
      destruct (bind_ok (ensureEnvironment P n) f (final o1) _ H2)
        as (E1 & E2 & E3)
  end.
  rewrite E1, E2, E3. clear E1 E2 E3. fold o2.
  do 6 (argv_step P; [|now rewrite app_nil_r]).
  exfalso.
  assert (H8 : 8 < length (sys_argv P))
    by (apply nth_error_Some; congruence).
  lia.
Qed.





(** X14: the command-line path never leaves a child in the background
    and never goes through rpyc: in every world the traces of [setup] and
    of the [__main__] block launch nothing and contain no connect, remote
    call or close. *)
Theorem command_line_path_is_local (P : Platform)
  (default_install_path : string) (args : Args) (w : world P) :
  (launched (events (setup P default_install_path args w)) = []
   /\ rpc_steps (events (setup P default_install_path args w)) = 0)
  /\ (launched (events (main P w)) = []
      /\ rpc_steps (events (main P w)) = 0).
Proof.
  split.
  - apply local_only_setup.
  - apply local_only_main.
Qed.

(** X15: started with fewer than nine entries in [sys.argv], the
    [__main__] block has no effect at all. It returns silently when its
    guard fails (three entries or fewer, or a command other than [setup]);
    when the guard passes it raises [IndexError] while building the
    argument dictionary, before [setup] is entered. *)
Theorem main_without_job_arguments (P : Platform) (w : world P) :
  length (sys_argv P) < 9 ->
  let o := main P w in
  events o = []
  /\ final o = w
  /\ (result o = Ok tt \/ result o = Raise IndexError)
  /\ (result o = Raise IndexError
      <-> 3 < length (sys_argv P)
          /\ nth_error (sys_argv P) 1 = Some "setup").
Proof.
  intros Hlen. cbv zeta. unfold main.
  destruct ((3 <? length (sys_argv P))%nat
            && match nth_error (sys_argv P) 1 with
               | Some a => a =? "setup"
               | None => false
               end) eqn:G.
  - apply andb_true_iff in G as [G1 G2]. apply Nat.ltb_lt in G1.
    assert (G3 : nth_error (sys_argv P) 1 = Some "setup").
    { destruct (nth_error (sys_argv P) 1) as [a|]; [|discriminate].
      apply String.eqb_eq in G2. now subst. }
    do 6 (argv_step P; [|repeat split; auto]).
    exfalso.
    assert (H8 : 8 < length (sys_argv P))
      by (apply nth_error_Some; congruence).
    lia.
  - cbn [ret result final events]. repeat split; auto; try discriminate.
    intros [G1 G2]. apply Nat.ltb_lt in G1.
    rewrite G1, G2 in G. simpl in G. discriminate.
Qed.

Lemma main_without_job_arguments_witness :
  (length (sys_argv short_argv_host) = 4
   /\ result (main short_argv_host []) = Raise IndexError
   /\ events (main short_argv_host []) = [])
  /\ (nth_error (sys_argv other_command_host) 1 = Some "status"
      /\ result (main other_command_host []) = Ok tt
      /\ events (main other_command_host []) = []).
Proof.
  split; (split; [reflexivity|]); (split; [reflexivity|]).
  - apply (main_without_job_arguments short_argv_host []). vm_compute. lia.
  - apply (main_without_job_arguments other_command_host []).
    vm_compute. lia.
Defined.

(** X16: started with the command [setup] and at least its six job
    arguments, the [__main__] block does what [setup] does and nothing
    else, whatever the arguments are: same result, same effects, same
    final world. *)
Theorem main_runs_setup (P : Platform) (w : world P)
  (a0 a2 a3 a4 a5 a6 a7 a8 : string) (more : list string)
  (default_install_path : string) (args : Args) :
  sys_argv P
  = a0 :: "setup" :: a2 :: a3 :: a4 :: a5 :: a6 :: a7 :: a8 :: more ->
  result (main P w) = result (setup P default_install_path args w)
  /\ final (main P w) = final (setup P default_install_path args w)
  /\ events (main P w) = events (setup P default_install_path args w).
Proof.
  intros Hargv. unfold main.
  destruct ((3 <? length (sys_argv P))%nat
            && match nth_error (sys_argv P) 1 with
               | Some a => a =? "setup"
               | None => false
               end) eqn:G.
  2:{ rewrite Hargv in G. simpl in G. discriminate. }
  do 7 (argv_step P;
        [|match goal with
          | E : nth_error (sys_argv P) _ = None |- _ =>
              rewrite Hargv in E; discriminate E
          end]).
  cbv beta. repeat split; reflexivity.
Qed.

Lemma main_runs_setup_witness :
  events (main provisioned_host [])
  = events (setup provisioned_host "~/miniconda3" job_args [])
  /\ commands_run (events (main provisioned_host []))
     = [runtime_probe; envs_listing;
        dispatch_command provisioned_host "C:\data\scans" "C:\data\models"
          "O C" "UR1 UL1" "true" "C:\data\out"].
Proof.
  split; [|reflexivity].
  apply (main_runs_setup provisioned_host [] _ _ _ _ _ _ _ _ []
           "~/miniconda3" job_args eq_refl).
Defined.

(* ===================================================================== *)
(** * Worker dispatch: further properties                                 *)
(* ===================================================================== *)

Lemma remote_calls_app (t u : list Event) :
  remote_calls (t ++ u) = (remote_calls t ++ remote_calls u)%list.
Proof.
  induction t as [|[] t IH]; simpl; try rewrite IH; reflexivity.
Qed.

Section Job.
Variable P : Platform.
Variables (default_install_path : string) (args : Args) (name : string).
Variable w : world P.
Hypothesis Hconnects : connects P default_install_path name w.

Lemma connect_outcome :
  rpyc_connect_call P "localhost" 18817
    (world_at_connect P default_install_path name w)
  = mkOutcome (Ok tt)
      (snd (rpyc_connect P "localhost" 18817
              (world_at_connect P default_install_path name w)))
      [EvConnect "localhost" 18817 None].
Proof.
  destruct Hconnects as (Hb & Hc). unfold rpyc_connect_call.
  rewrite Hb. cbv beta zeta. now rewrite Hc.
Qed.

(** The job fails at [conn.root.running]. *)
Lemma call_after_launch_job_fails (e : exn) :
  fst (rpyc_running P args
         (world_at_running P default_install_path name w)) = Some e ->
  let t := call_after_launch P args
             (world_at_connect P default_install_path name w) in
  result t = Raise e
  /\ events t
     = [EvConnect "localhost" 18817 None; EvSleep 2;
        EvRemote "running" (Some e)].
Proof.
  intros He. unfold world_at_running in He.
  unfold call_after_launch. cbv zeta.
  pose proof connect_outcome as Hc.
  bind_known Hc. bind_ok_step. cbv beta. cbn [final events time_sleep].
  match goal with
  | |- context [bind (conn_root_running P args) ?f ?w'] =>
      assert (Hr : result (conn_root_running P args w') = Raise e)
        by (unfold conn_root_running; cbv zeta; cbn [result];
            now rewrite He);
      destruct (bind_raise (conn_root_running P args) f w' e Hr)
        as (-> & _ & ->)
  end.
  unfold conn_root_running. cbn [events]. rewrite He.
  split; reflexivity.
Qed.

(** The job is done and the worker answers [stop] with [s]. *)
Lemma call_after_launch_job_done (s : string) :
  fst (rpyc_running P args
         (world_at_running P default_install_path name w)) = None ->
  fst (rpyc_stop P (world_at_stop P default_install_path args name w))
  = inr s ->
  let t := call_after_launch P args
             (world_at_connect P default_install_path name w) in
  result t = Ok tt
  /\ events t
     = ([EvConnect "localhost" 18817 None; EvSleep 2;
         EvRemote "running" None; EvRemote "stop" None]
        ++ (if s =? "DISCONNECTING" then [EvClose] else [])
        ++ [EvPrint [VStr "on a ferme le server"]])%list.
Proof.
  intros Hr Hs. unfold world_at_stop, world_at_running in Hr, Hs.
  unfold call_after_launch. cbv zeta.
  pose proof connect_outcome as Hc.
  bind_known Hc. bind_ok_step. cbv beta. cbn [final events time_sleep].
  match goal with
  | |- context [bind (conn_root_running P args) ?f ?w'] =>
      assert (Hrun : conn_root_running P args w'
                     = mkOutcome (Ok tt) (snd (rpyc_running P args w'))
                                 [EvRemote "running" None])
        by (unfold conn_root_running; cbv zeta; now rewrite Hr)
  end.
  bind_known Hrun.
  match goal with
  | |- context [bind (conn_root_stop P) ?f ?w'] =>
      assert (Hstop : conn_root_stop P w'
                      = mkOutcome (Ok s) (snd (rpyc_stop P w'))
                                  [EvRemote "stop" None])
        by (unfold conn_root_stop; cbv zeta; now rewrite Hs)
  end.
  bind_known Hstop. cbv beta.
  destruct (s =? "DISCONNECTING"); do 1 bind_ok_step; cbv beta;
    split; reflexivity.
Qed.

End Job.

(** X17: when the connection opens, the job runs and the worker answers
    [stop], [call] returns normally, having sent [running] and then [stop]
    and printed its closing message; but the client connection is closed
    only if the answer is exactly [DISCONNECTING]: with any other answer
    it is left open. *)
Theorem call_closes_only_on_disconnecting (P : Platform)
  (default_install_path : string) (args : Args) (name : string)
  (w : world P) (s : string) :
  connects P default_install_path name w ->
  fst (rpyc_running P args
         (world_at_running P default_install_path name w)) = None ->
  fst (rpyc_stop P (world_at_stop P default_install_path args name w))
  = inr s ->
  let o := call P default_install_path args name w in
  result o = Ok tt
  /\ remote_calls (events o) = ["running"; "stop"]
  /\ open_connections 0 (events o)
     = (if s =? "DISCONNECTING" then 0 else 1)
  /\ last (printed (events o)) [] = [VStr "on a ferme le server"].
Proof.
  intros Hc Hr Hs.
  destruct (call_decompose P default_install_path args name w) as (R & V).
  destruct (call_after_launch_job_done P default_install_path args name w
              Hc s Hr Hs) as (R' & V').
  cbv zeta in *. rewrite R, V, R', V'.
  destruct (s =? "DISCONNECTING"); repeat split; reflexivity.
Qed.

Lemma call_closes_only_on_disconnecting_witness :
  let polite := worker_host None (inr "DISCONNECTING") in
  let chatty := worker_host None (inr "BYE") in
  (result (call polite "~/miniconda3" job_args env_name []) = Ok tt
   /\ open_connections 0
        (events (call polite "~/miniconda3" job_args env_name [])) = 0)
  /\ (result (call chatty "~/miniconda3" job_args env_name []) = Ok tt
      /\ open_connections 0
           (events (call chatty "~/miniconda3" job_args env_name [])) = 1).
Proof.
  intros polite chatty. split.
  - destruct (call_closes_only_on_disconnecting polite "~/miniconda3"
                job_args env_name [] "DISCONNECTING")
      as (R & _ & C & _);
      [split; reflexivity|reflexivity|reflexivity|].
    split; [exact R|exact C].
  - destruct (call_closes_only_on_disconnecting chatty "~/miniconda3"
                job_args env_name [] "BYE")
      as (R & _ & C & _);
      [split; reflexivity|reflexivity|reflexivity|].
    split; [exact R|exact C].
Defined.


